(** * Dungeon Quest: the combat resolution engine

    A shallow embedding of [stats.py], [entities.py], [player.py], [enemy.py]
    and [combat.py], followed by the properties of the statistics container,
    the status effect engine, skill resolution, progression and the combat
    turn loop.

    Conventions of the embedding.
    - A Python [int] is a [Z].
    - A Python [float] is a rational [Q] and float arithmetic is exact;
      [int(x)] on a float truncates toward zero ([py_int]).
    - A Python object that is mutated in place is a record that the method
      returns updated; a list mutated through its elements is updated by
      index.  The player and the enemy of a combat are distinct objects.
    - [input()] reads the next line of a list of lines and fails at the end
      of input; [random.uniform] and [random.random] read the next value of
      an infinite stream of rationals.
    - Screen rendering only prints and is left out, but for the helpers of
      [Display] in [display.py] that compute text.

    The embedding comes first, then the vocabulary of the statements and
    the sample states, then the properties. *)

From Stdlib Require Import ZArith QArith Qround String Ascii DecimalString.
From stdpp Require Import base option list gmap strings.
From Stdlib Require Import Lqa.

Open Scope Z_scope.

(** ** Python primitives *)

(** [int(x)] for a float [x]: truncation toward zero. *)
Definition py_int (x : Q) : Z := Z.quot (Qnum x) (Z.pos (Qden x)).

(** [str(n)] for an int [n], as used by f-strings. *)
Definition str (n : Z) : string := NilZero.string_of_int (Z.to_int n).

(** [a < b] on floats. *)
Definition Qlt_bool (a b : Q) : bool := negb (Qle_bool b a).

(** ** stats.py *)

Module StatusEffect.

Record t := mk {
  name : string;
  effect_type : string;
  stat_affected : string;
  power : Z;
  duration : Z
}.

Definition with_power (v : Z) (e : t) : t :=
  mk (name e) (effect_type e) (stat_affected e) v (duration e).

Definition with_duration (v : Z) (e : t) : t :=
  mk (name e) (effect_type e) (stat_affected e) (power e) v.

(** [tick]: one turn less; the result tells whether the effect is still
    active. *)
Definition tick (self : t) : bool * t :=
  let self := with_duration (duration self - 1) self in
  (0 <? duration self, self).

End StatusEffect.

Module Stats.

Record t := mk {
  hp : Z;
  max_hp : Z;
  mp : Z;
  max_mp : Z;
  attack : Z;
  speed : Z;
  level : Z;
  exp : Z;
  status_effects : list StatusEffect.t
}.

Definition with_hp (v : Z) (s : t) : t :=
  mk v (max_hp s) (mp s) (max_mp s) (attack s) (speed s) (level s) (exp s)
     (status_effects s).

Definition with_max_hp (v : Z) (s : t) : t :=
  mk (hp s) v (mp s) (max_mp s) (attack s) (speed s) (level s) (exp s)
     (status_effects s).

Definition with_mp (v : Z) (s : t) : t :=
  mk (hp s) (max_hp s) v (max_mp s) (attack s) (speed s) (level s) (exp s)
     (status_effects s).

Definition with_max_mp (v : Z) (s : t) : t :=
  mk (hp s) (max_hp s) (mp s) v (attack s) (speed s) (level s) (exp s)
     (status_effects s).

Definition with_attack (v : Z) (s : t) : t :=
  mk (hp s) (max_hp s) (mp s) (max_mp s) v (speed s) (level s) (exp s)
     (status_effects s).

Definition with_speed (v : Z) (s : t) : t :=
  mk (hp s) (max_hp s) (mp s) (max_mp s) (attack s) v (level s) (exp s)
     (status_effects s).

Definition with_level (v : Z) (s : t) : t :=
  mk (hp s) (max_hp s) (mp s) (max_mp s) (attack s) (speed s) v (exp s)
     (status_effects s).

Definition with_exp (v : Z) (s : t) : t :=
  mk (hp s) (max_hp s) (mp s) (max_mp s) (attack s) (speed s) (level s) v
     (status_effects s).

Definition with_status_effects (v : list StatusEffect.t) (s : t) : t :=
  mk (hp s) (max_hp s) (mp s) (max_mp s) (attack s) (speed s) (level s)
     (exp s) v.

(** The loop of [add_status_effect] over the effects: the first effect
    with the name of [effect] is refreshed in place and the search stops
    ([Some]); [None] when no effect has that name. *)
Fixpoint merge_status_effect (effect : StatusEffect.t)
    (effects : list StatusEffect.t) : option (list StatusEffect.t) :=
  match effects with
  | [] => None
  | existing :: rest =>
      if String.eqb (StatusEffect.name existing) (StatusEffect.name effect)
      then
        let existing :=
          StatusEffect.with_duration
            (Z.max (StatusEffect.duration existing)
                   (StatusEffect.duration effect)) existing in
        let existing :=
          if String.eqb (StatusEffect.effect_type effect) "damage_over_time"
          then StatusEffect.with_power
                 (StatusEffect.power existing + StatusEffect.power effect)
                 existing
          else existing in
        Some (existing :: rest)
      else option_map (cons existing) (merge_status_effect effect rest)
  end.

Definition add_status_effect (self : t) (effect : StatusEffect.t) : t :=
  match merge_status_effect effect (status_effects self) with
  | Some effects => with_status_effects effects self
  | None => with_status_effects (status_effects self ++ [effect]) self
  end.

Definition remove_status_effect (self : t) (effect_name : string) : t :=
  with_status_effects
    (List.filter
       (fun e => negb (String.eqb (StatusEffect.name e) effect_name))
       (status_effects self))
    self.

Definition get_stat_modifier (self : t) (stat_name : string) : Z :=
  List.fold_left
    (fun total effect =>
       if String.eqb (StatusEffect.effect_type effect) "stat_mod"
          && String.eqb (StatusEffect.stat_affected effect) stat_name
       then total + StatusEffect.power effect
       else total)
    (status_effects self) 0.

Definition get_effective_attack (self : t) : Z :=
  Z.max 1 (attack self + get_stat_modifier self "attack").

Definition get_effective_speed (self : t) : Z :=
  Z.max 1 (speed self + get_stat_modifier self "speed").

Definition is_stunned (self : t) : bool :=
  List.existsb
    (fun e => String.eqb (StatusEffect.effect_type e) "stun")
    (status_effects self).

Definition take_damage (self : t) (damage : Z) : Z * t :=
  let actual_damage := Z.max 1 damage in
  (actual_damage, with_hp (Z.max 0 (hp self - actual_damage)) self).

Definition heal (self : t) (amount : Z) : Z * t :=
  let actual_heal := Z.max 1 amount in
  (actual_heal, with_hp (Z.min (max_hp self) (hp self + amount)) self).

Definition is_alive (self : t) : bool := 0 <? hp self.

Definition use_mp (self : t) (amount : Z) : bool * t :=
  if amount <=? mp self
  then (true, with_mp (mp self - amount) self)
  else (false, self).

Definition restore_mp (self : t) (amount : Z) : t :=
  with_mp (Z.min (max_mp self) (mp self + amount)) self.

(** The state of the first loop of [tick_status_effects]: the container,
    the messages and the names scheduled for removal. *)
Record tick_state := mk_tick {
  tick_self : t;
  tick_messages : list string;
  effects_to_remove : list string
}.

(** The body of the first loop at position [i] of [self.status_effects];
    the effect is aged in place, so the list keeps its length and its
    order during the pass. *)
Definition tick_body (st : tick_state) (i : nat) : tick_state :=
  let self := tick_self st in
  match status_effects self !! i with
  | None => st
  | Some effect =>
      let '(self, messages) :=
        if String.eqb (StatusEffect.effect_type effect) "damage_over_time"
        then
          let '(damage, self) :=
            take_damage self (StatusEffect.power effect) in
          (self,
           tick_messages st ++
             ["[DOT] " +:+ StatusEffect.name effect +:+ " deals " +:+
              str damage +:+ " damage!"])
        else (self, tick_messages st) in
      let '(active, effect) := StatusEffect.tick effect in
      let self :=
        with_status_effects (<[i := effect]> (status_effects self)) self in
      if active
      then mk_tick self messages (effects_to_remove st)
      else mk_tick self
             (messages ++
                ["[*] " +:+ StatusEffect.name effect +:+ " wore off!"])
             (effects_to_remove st ++ [StatusEffect.name effect])
  end.

(** The first loop: one visit per position, front to back. *)
Definition tick_pass (self : t) : tick_state :=
  List.fold_left tick_body
    (List.seq 0 (length (status_effects self)))
    (mk_tick self [] []).

Definition tick_status_effects (self : t) : list string * t :=
  let st := tick_pass self in
  (tick_messages st,
   List.fold_left remove_status_effect (effects_to_remove st)
     (tick_self st)).

(** One entry of [get_status_effects_text]; an effect of another type has
    none. *)
Definition effect_text (effect : StatusEffect.t) : option string :=
  if String.eqb (StatusEffect.effect_type effect) "stat_mod" then
    let sign := if 0 <? StatusEffect.power effect then "+" else "" in
    Some (StatusEffect.name effect +:+ " " +:+ sign +:+
          str (StatusEffect.power effect) +:+ " (" +:+
          str (StatusEffect.duration effect) +:+ "t)")
  else if String.eqb (StatusEffect.effect_type effect) "damage_over_time" then
    Some (StatusEffect.name effect +:+ " " +:+
          str (StatusEffect.power effect) +:+ "/turn (" +:+
          str (StatusEffect.duration effect) +:+ "t)")
  else if String.eqb (StatusEffect.effect_type effect) "stun" then
    Some (StatusEffect.name effect +:+ " (" +:+
          str (StatusEffect.duration effect) +:+ "t)")
  else None.

Definition get_status_effects_text (self : t) : string :=
  match status_effects self with
  | [] => "None"
  | effects => String.concat ", " (omap effect_text effects)
  end.

End Stats.

Module Skill.

Record t := mk {
  name : string;
  description : string;
  mp_cost : Z;
  skill_type : string;
  power : Q;
  duration : Z;
  status_effect : option string
}.

End Skill.

Module Item.

Record t := mk {
  name : string;
  description : string;
  item_type : string;
  effect : option (gmap string Z)
}.

End Item.

(** ** The environment: standard input and the random generator *)

Record Env := mk_env {
  stdin : list string;   (* the lines still to be read *)
  rng : nat -> Q;        (* the values of [random.random()], in [0, 1) *)
  drawn : nat            (* how many of them were consumed *)
}.

(** A computation that reads the environment; [None] is the [EOFError] of
    [input()] at the end of input. *)
Definition IO (A : Type) : Type := Env -> option (A * Env).

Definition ret {A} (a : A) : IO A := fun w => Some (a, w).

Definition bind {A B} (m : IO A) (k : A -> IO B) : IO B :=
  fun w => match m w with
           | Some (a, w) => k a w
           | None => None
           end.

Notation "x <- m ;; k" := (bind m (fun x => k))
  (at level 100, m at next level, right associativity).

(** [input(prompt)]: the next line, without its newline. *)
Definition input : IO string :=
  fun w => match stdin w with
           | [] => None
           | line :: rest => Some (line, mk_env rest (rng w) (drawn w))
           end.

(** [random.random()]. *)
Definition random : IO Q :=
  fun w => Some (rng w (drawn w), mk_env (stdin w) (rng w) (S (drawn w))).

(** [random.uniform(a, b)] is [a + (b - a) * random()]. *)
Definition uniform (a b : Q) : IO Q :=
  u <- random ;; ret (a + (b - a) * u)%Q.

(** ** Strings read from the keyboard (ASCII) *)

Definition is_space (c : ascii) : bool :=
  let n := N_of_ascii c in
  ((9 <=? n) && (n <=? 13) || (28 <=? n) && (n <=? 32))%N.

Fixpoint lstrip (s : string) : string :=
  match s with
  | String c rest => if is_space c then lstrip rest else s
  | EmptyString => s
  end.

Fixpoint rstrip (s : string) : string :=
  match s with
  | String c rest =>
      match rstrip rest with
      | EmptyString => if is_space c then EmptyString else String c EmptyString
      | rest => String c rest
      end
  | EmptyString => s
  end.

Definition strip (s : string) : string := rstrip (lstrip s).

Definition is_digit (c : ascii) : bool :=
  let n := N_of_ascii c in ((48 <=? n) && (n <=? 57))%N.

Fixpoint all_digits (s : string) : bool :=
  match s with
  | String c rest => is_digit c && all_digits rest
  | EmptyString => true
  end.

(** [s.isdigit()]. *)
Definition isdigit (s : string) : bool :=
  match s with
  | EmptyString => false
  | _ => all_digits s
  end.

Fixpoint int_of_digits (acc : Z) (s : string) : Z :=
  match s with
  | String c rest =>
      int_of_digits (10 * acc + (Z.of_N (N_of_ascii c) - 48)) rest
  | EmptyString => acc
  end.

(** [int(s)] for a string of digits. *)
Definition int_of_str (s : string) : Z := int_of_digits 0 s.

Definition lower_ascii (c : ascii) : ascii :=
  let n := N_of_ascii c in
  if ((65 <=? n) && (n <=? 90))%N then ascii_of_N (n + 32) else c.

(** [s.lower()]. *)
Fixpoint lower (s : string) : string :=
  match s with
  | String c rest => String (lower_ascii c) (lower rest)
  | EmptyString => s
  end.

(** ** entities.py *)

Module Entity.

Record t := mk {
  name : string;
  stats : Stats.t;
  ascii_art : string
}.

Definition with_stats (v : Stats.t) (e : t) : t :=
  mk (name e) v (ascii_art e).

(** [self.basic_attack(target)], where [target] is another object than
    [self]; the target is returned updated. *)
Definition basic_attack (self target : t) : IO (Z * string * t) :=
  let effective_attack := Stats.get_effective_attack (stats self) in
  r <- uniform 0.8 1.2 ;;
  let damage := py_int (inject_Z effective_attack * r) in
  let '(actual_damage, target_stats) :=
    Stats.take_damage (stats target) damage in
  let message :=
    name self +:+ " attacks " +:+ name target +:+ " for " +:+
    str actual_damage +:+ " damage!" in
  ret (actual_damage, message, with_stats target_stats target).

End Entity.

(** [l.remove(x)]: the first element equal to [x] is deleted.  (Python
    raises [ValueError] when there is none; the callers below only remove an
    element they have just found in the list.) *)
Fixpoint list_remove `{EqDecision A} (x : A) (l : list A) : list A :=
  match l with
  | [] => []
  | y :: rest => if decide (y = x) then rest else y :: list_remove x rest
  end.

#[global] Instance Item_eq_dec : EqDecision Item.t.
Proof. solve_decision. Defined.

(** ** player.py *)

Module Player.

(** A [Player] is an [Entity] with a class name, an inventory, skills and
    gold. *)
Record t := mk {
  entity : Entity.t;
  class_name : string;
  inventory : list Item.t;
  skills : list Skill.t;
  gold : Z
}.

Definition name (p : t) : string := Entity.name (entity p).
Definition stats (p : t) : Stats.t := Entity.stats (entity p).

Definition with_stats (v : Stats.t) (p : t) : t :=
  mk (Entity.with_stats v (entity p)) (class_name p) (inventory p)
     (skills p) (gold p).

Definition with_inventory (v : list Item.t) (p : t) : t :=
  mk (entity p) (class_name p) v (skills p) (gold p).

Definition with_gold (v : Z) (p : t) : t :=
  mk (entity p) (class_name p) (inventory p) (skills p) v.

Definition level_up (self : t) : t :=
  let s := stats self in
  let s := Stats.with_level (Stats.level s + 1) s in
  let s := Stats.with_max_hp
             (Stats.max_hp s + py_int (inject_Z (Stats.max_hp s) * 0.1)) s in
  let s := Stats.with_max_mp
             (Stats.max_mp s + py_int (inject_Z (Stats.max_mp s) * 0.1)) s in
  let s := Stats.with_hp (Stats.max_hp s) s in
  let s := Stats.with_mp (Stats.max_mp s) s in
  let s := Stats.with_attack
             (Stats.attack s + py_int (inject_Z (Stats.attack s) * 0.1)) s in
  let s := Stats.with_speed (Stats.speed s + 1) s in
  with_stats s self.

Definition gain_exp (self : t) (exp : Z) : t :=
  let self :=
    with_stats (Stats.with_exp (Stats.exp (stats self) + exp) (stats self))
               self in
  let exp_needed := Stats.level (stats self) * 100 in
  if exp_needed <=? Stats.exp (stats self)
  then level_up self
  else self.


(** The search of [use_item]: the first item whose name is [item_name],
    whatever the case of the letters. *)
Fixpoint find_item (item_name : string) (inventory : list Item.t)
    : option Item.t :=
  match inventory with
  | [] => None
  | item :: rest =>
      if String.eqb (lower (Item.name item)) (lower item_name)
      then Some item
      else find_item item_name rest
  end.

Definition use_item (self : t) (item_name : string) : option string * t :=
  match find_item item_name (inventory self) with
  | None => (None, self)
  | Some item =>
      let used := Some ("Used " +:+ Item.name item +:+ ".") in
      match Item.effect item with
      | None => (used, self)
      | Some effect =>
          if bool_decide (effect = ∅) then (used, self)
          else
            match effect !! "hp", effect !! "mp" with
            | Some hp, _ =>
                let '(_, s) := Stats.heal (stats self) hp in
                let self := with_stats s self in
                let self :=
                  with_inventory (list_remove item (inventory self)) self in
                (Some ("Used " +:+ Item.name item +:+ "! Restored " +:+
                       str hp +:+ " HP."), self)
            | None, Some mp =>
                let s := Stats.restore_mp (stats self) mp in
                let self := with_stats s self in
                let self :=
                  with_inventory (list_remove item (inventory self)) self in
                (Some ("Used " +:+ Item.name item +:+ "! Restored " +:+
                       str mp +:+ " MP."), self)
            | None, None => (used, self)
            end
      end
  end.

(** Line 89 of [use_skill]: the amount every skill type starts from. *)
Definition effect_amount (self : t) (skill : Skill.t) : Z :=
  py_int (inject_Z (Stats.attack (stats self)) * Skill.power skill).

(** [skill.status_effect or skill.name]. *)
Definition dot_name (skill : Skill.t) : string :=
  match Skill.status_effect skill with
  | Some s => if String.eqb s "" then Skill.name skill else s
  | None => Skill.name skill
  end.

(** [self.use_skill(skill, target)], where [target] is another object than
    [self]; the caster and the target are returned updated. *)
Definition use_skill (self : t) (skill : Skill.t) (target : Entity.t)
    : IO (option Z * string * t * Entity.t) :=
  let '(paid, s) := Stats.use_mp (stats self) (Skill.mp_cost skill) in
  if negb paid
  then ret (None,
            "Not enough MP! Need " +:+ str (Skill.mp_cost skill) +:+ " MP.",
            self, target)
  else
    let self := with_stats s self in
    let effect_amount := effect_amount self skill in
    let skill_type := Skill.skill_type skill in
    if String.eqb skill_type "damage" then
      r <- uniform 0.9 1.1 ;;
      let damage := py_int (inject_Z effect_amount * r) in
      let '(actual_damage, ts) :=
        Stats.take_damage (Entity.stats target) damage in
      ret (Some actual_damage,
           name self +:+ " uses " +:+ Skill.name skill +:+ "! Deals " +:+
           str actual_damage +:+ " damage!",
           self, Entity.with_stats ts target)
    else if String.eqb skill_type "heal" then
      let heal_amount := effect_amount in
      let '(_, ts) := Stats.heal (Entity.stats target) heal_amount in
      ret (Some 0,
           name self +:+ " uses " +:+ Skill.name skill +:+ "! Restored " +:+
           str heal_amount +:+ " HP!",
           self, Entity.with_stats ts target)
    else if String.eqb skill_type "buff" then
      let buff_amount := Z.max 1 effect_amount in
      let effect :=
        StatusEffect.mk (Skill.name skill) "stat_mod" "attack" buff_amount
                        (Skill.duration skill) in
      let self :=
        with_stats (Stats.add_status_effect (stats self) effect) self in
      ret (Some 0,
           name self +:+ " uses " +:+ Skill.name skill +:+ "! Attack +" +:+
           str buff_amount +:+ " for " +:+ str (Skill.duration skill) +:+
           " turns!",
           self, target)
    else if String.eqb skill_type "debuff" then
      let debuff_amount := Z.max 1 effect_amount in
      let effect :=
        StatusEffect.mk (Skill.name skill) "stat_mod" "attack"
                        (- debuff_amount) (Skill.duration skill) in
      let ts := Stats.add_status_effect (Entity.stats target) effect in
      ret (Some 0,
           name self +:+ " uses " +:+ Skill.name skill +:+ "! " +:+
           Entity.name target +:+ "'s attack -" +:+ str debuff_amount +:+
           " for " +:+ str (Skill.duration skill) +:+ " turns!",
           self, Entity.with_stats ts target)
    else if String.eqb skill_type "dot" then
      let dot_damage := Z.max 1 effect_amount in
      let effect :=
        StatusEffect.mk (dot_name skill) "damage_over_time" "" dot_damage
                        (Skill.duration skill) in
      let ts := Stats.add_status_effect (Entity.stats target) effect in
      ret (Some 0,
           name self +:+ " uses " +:+ Skill.name skill +:+ "! " +:+
           Entity.name target +:+ " is afflicted with " +:+
           StatusEffect.name effect +:+ "!",
           self, Entity.with_stats ts target)
    else if String.eqb skill_type "stun" then
      let effect :=
        StatusEffect.mk "Stunned" "stun" "" 0 (Skill.duration skill) in
      let ts := Stats.add_status_effect (Entity.stats target) effect in
      ret (Some 0,
           name self +:+ " uses " +:+ Skill.name skill +:+ "! " +:+
           Entity.name target +:+ " is stunned for " +:+
           str (Skill.duration skill) +:+ " turns!",
           self, Entity.with_stats ts target)
    else
      ret (None, "Unknown skill type: " +:+ skill_type, self, target).

End Player.

(** ** enemy.py *)

Module Enemy.

Record t := mk {
  entity : Entity.t;
  exp_reward : Z;
  gold_reward : Z
}.

Definition name (e : t) : string := Entity.name (entity e).
Definition stats (e : t) : Stats.t := Entity.stats (entity e).

Definition with_entity (v : Entity.t) (e : t) : t :=
  mk v (exp_reward e) (gold_reward e).

Definition with_stats (v : Stats.t) (e : t) : t :=
  with_entity (Entity.with_stats v (entity e)) e.

End Enemy.

(** ** combat.py *)

Module CombatSystem.

Record t := mk {
  player : Player.t;
  enemy : Enemy.t;
  messages : list string;
  turn : Z
}.

(** [CombatSystem(player, enemy, screen)]. *)
Definition init (player : Player.t) (enemy : Enemy.t) : t :=
  mk player enemy ["A wild " +:+ Enemy.name enemy +:+ " appears!"] 0.

Definition with_player (v : Player.t) (c : t) : t :=
  mk v (enemy c) (messages c) (turn c).

Definition with_enemy (v : Enemy.t) (c : t) : t :=
  mk (player c) v (messages c) (turn c).

Definition with_turn (v : Z) (c : t) : t :=
  mk (player c) (enemy c) (messages c) v.

(** [self.messages.append(msg)] and [self.messages.extend(msgs)]. *)
Definition extend (msgs : list string) (c : t) : t :=
  mk (player c) (enemy c) (messages c ++ msgs) (turn c).

Definition append (msg : string) (c : t) : t := extend [msg] c.

Definition _handle_skills (self : t) : IO (bool * t) :=
  line <- input ;;
  let choice := strip line in
  if String.eqb choice "0" then ret (false, self)
  else if isdigit choice then
    let idx := int_of_str choice - 1 in
    if (0 <=? idx) && (idx <? Z.of_nat (length (Player.skills (player self))))
    then
      match Player.skills (player self) !! Z.to_nat idx with
      | None => ret (false, self)
      | Some skill =>
          r <- Player.use_skill (player self) skill
                 (Enemy.entity (enemy self)) ;;
          let '(damage, msg, p, e) := r in
          let self := with_enemy (Enemy.with_entity e (enemy self))
                        (with_player p self) in
          match damage with
          | None =>
              let self := append msg self in
              _ <- input ;;
              ret (false, self)
          | Some _ => ret (true, append msg self)
          end
      end
    else ret (false, self)
  else ret (false, self).

Definition _handle_items (self : t) : IO (bool * t) :=
  match Player.inventory (player self) with
  | [] => _ <- input ;; ret (false, self)
  | _ =>
      line <- input ;;
      let choice := strip line in
      if String.eqb choice "0" then ret (false, self)
      else if isdigit choice then
        let idx := int_of_str choice - 1 in
        if (0 <=? idx)
           && (idx <? Z.of_nat (length (Player.inventory (player self))))
        then
          match Player.inventory (player self) !! Z.to_nat idx with
          | None => ret (false, self)
          | Some item =>
              let '(result, p) :=
                Player.use_item (player self) (Item.name item) in
              let self := with_player p self in
              match result with
              | Some msg =>
                  if String.eqb msg "" then ret (false, self)
                  else ret (true, append msg self)
              | None => ret (false, self)
              end
          end
        else ret (false, self)
      else ret (false, self)
  end.

Definition _enemy_turn (self : t) : IO t :=
  if Stats.is_stunned (Enemy.stats (enemy self))
  then ret (append (Enemy.name (enemy self) +:+
                    " is stunned and cannot act!") self)
  else
    r <- Entity.basic_attack (Enemy.entity (enemy self))
           (Player.entity (player self)) ;;
    let '(_, msg, p) := r in
    let self :=
      with_player (Player.with_stats (Entity.stats p) (player self)) self in
    ret (append msg self).

Definition _end_of_turn (self : t) : t :=
  let '(player_messages, ps) :=
    Stats.tick_status_effects (Player.stats (player self)) in
  let self := with_player (Player.with_stats ps (player self)) self in
  let self := extend player_messages self in
  let '(enemy_messages, es) :=
    Stats.tick_status_effects (Enemy.stats (enemy self)) in
  let self := with_enemy (Enemy.with_stats es (enemy self)) self in
  extend enemy_messages self.

Definition _attempt_flee (self : t) : IO (bool * t) :=
  u <- random ;;
  if Qlt_bool u 0.5 then
    let self := append (Player.name (player self) +:+
                        " successfully fled!") self in
    _ <- input ;;
    ret (true, self)
  else
    ret (false, append (Player.name (player self) +:+
                        " couldn't escape!") self).

Definition _handle_victory (self : t) : IO (bool * t) :=
  let self := append (Enemy.name (enemy self) +:+ " defeated!") self in
  let old_level := Stats.level (Player.stats (player self)) in
  let p := Player.gain_exp (player self) (Enemy.exp_reward (enemy self)) in
  let p := Player.with_gold (Player.gold p + Enemy.gold_reward (enemy self))
             p in
  let self := with_player p self in
  let reward_msg :=
    "Gained " +:+ str (Enemy.exp_reward (enemy self)) +:+ " EXP and " +:+
    str (Enemy.gold_reward (enemy self)) +:+ " gold!" in
  let self := append reward_msg self in
  let self :=
    if old_level <? Stats.level (Player.stats (player self))
    then append ("[LEVEL UP!] Now level " +:+
                 str (Stats.level (Player.stats (player self))) +:+ "!")
                self
    else self in
  _ <- input ;;
  ret (true, self).

(** How the player's part of one pass of the loop of [run_combat] ends. *)
Inductive flow :=
| Fall (self : t)                  (* on to the end-of-turn processing *)
| Continue (self : t)              (* [continue] *)
| Return (result : bool) (self : t).  (* [return result] *)

(** The [if]/[elif] chain on the player's choice. *)
Definition player_turn (choice : string) (self : t) : IO flow :=
  if String.eqb choice "1" then
    r <- Entity.basic_attack (Player.entity (player self))
           (Enemy.entity (enemy self)) ;;
    let '(_, msg, e) := r in
    let self := with_enemy (Enemy.with_entity e (enemy self)) self in
    let self := append msg self in
    if negb (Stats.is_alive (Enemy.stats (enemy self))) then
      r <- _handle_victory self ;; ret (Return (fst r) (snd r))
    else
      self <- _enemy_turn self ;; ret (Fall self)
  else if String.eqb choice "2" then
    r <- _handle_skills self ;;
    let '(skill_used, self) := r in
    if skill_used then
      if negb (Stats.is_alive (Enemy.stats (enemy self))) then
        r <- _handle_victory self ;; ret (Return (fst r) (snd r))
      else
        self <- _enemy_turn self ;; ret (Fall self)
    else ret (Continue self)
  else if String.eqb choice "3" then
    r <- _handle_items self ;;
    let '(item_used, self) := r in
    if item_used then
      self <- _enemy_turn self ;; ret (Fall self)
    else ret (Continue self)
  else if String.eqb choice "4" then
    r <- _attempt_flee self ;;
    let '(fled, self) := r in
    if fled then ret (Return false self)
    else self <- _enemy_turn self ;; ret (Fall self)
  else ret (Fall self).

(** One pass of the body of the [while] loop of [run_combat]. *)
Definition turn_body (self : t) : IO flow :=
  let self := with_turn (turn self + 1) self in
  if Stats.is_stunned (Player.stats (player self)) then
    let self := append (Player.name (player self) +:+
                        " is stunned and cannot act!") self in
    _ <- input ;;
    self <- _enemy_turn self ;;
    let self := _end_of_turn self in
    ret (Continue self)
  else
    line <- input ;;
    f <- player_turn (strip line) self ;;
    match f with
    | Fall self => ret (Continue (_end_of_turn self))
    | _ => ret f
    end.

(** The test of the [while] loop. *)
Definition active (self : t) : bool :=
  Stats.is_alive (Player.stats (player self))
  && Stats.is_alive (Enemy.stats (enemy self)).

(** The code after the loop. *)
Definition after_loop (self : t) : IO (bool * t) :=
  if negb (Stats.is_alive (Player.stats (player self))) then
    let self := append (Player.name (player self) +:+
                        " has been defeated...") self in
    _ <- input ;;
    ret (false, self)
  else ret (true, self).

(** [run_combat], for at most [fuel] passes of the loop: [Some] of the
    returned value and the final state, [None] when the passes are used
    up. *)
Fixpoint run_combat (fuel : nat) (self : t) : IO (option (bool * t)) :=
  if active self then
    match fuel with
    | O => ret None
    | S fuel =>
        f <- turn_body self ;;
        match f with
        | Fall self | Continue self => run_combat fuel self
        | Return result self => ret (Some (result, self))
        end
    end
  else
    r <- after_loop self ;; ret (Some r).

End CombatSystem.

(** ** display.py: the helpers of [Display] that compute text

    A text is a string of one-byte characters.  [len] is [len(s)];
    [spaces n] is [" " * n], the empty string when [n] is not positive;
    [slice_to n s] is [s[:n]], where a negative [n] counts from the end;
    [split_lines] is [s.split('\n')]. *)

Module Display.

Definition len (s : string) : Z := Z.of_nat (String.length s).

Fixpoint replicate_space (n : nat) : string :=
  match n with
  | O => EmptyString
  | S n => String " " (replicate_space n)
  end.

Definition spaces (n : Z) : string := replicate_space (Z.to_nat n).

Definition slice_to (n : Z) (s : string) : string :=
  let stop := if n <? 0 then Z.max 0 (len s + n) else Z.min n (len s) in
  String.substring 0 (Z.to_nat stop) s.

Fixpoint split_lines (s : string) : list string :=
  match s with
  | EmptyString => [EmptyString]
  | String c rest =>
      if Ascii.eqb c "010" then EmptyString :: split_lines rest
      else match split_lines rest with
           | line :: lines => String c line :: lines
           | [] => [String c EmptyString]
           end
  end.

Definition center_text (text : string) (width : Z) : string :=
  let padding := (width - len text) / 2 in
  spaces padding +:+ text.

Definition render_ascii_art (art : string) (width : Z) : list string :=
  List.map
    (fun line =>
       if len line <? width - 4 then center_text line (width - 2)
       else slice_to (width - 4) line)
    (split_lines art).

End Display.

(** ** The player classes of player.py and the enemies of enemy.py

    The pictures of [ascii_art] are only shown on the screen; they are left
    empty. *)

Definition power_strike : Skill.t :=
  Skill.mk "Power Strike" "Heavy attack dealing 150% damage" 10 "damage" 1.5
           0 None.

Definition whirlwind : Skill.t :=
  Skill.mk "Whirlwind" "Spinning attack dealing 200% damage" 20 "damage" 2.0
           0 None.

Definition battle_cry : Skill.t :=
  Skill.mk "Battle Cry" "Boost attack by 30% for 3 turns" 15 "buff" 0.3 3
           None.

Definition Warrior (name : string) : Player.t :=
  Player.mk (Entity.mk name (Stats.mk 120 120 30 30 18 8 1 0 []) "")
            "Warrior" [] [power_strike; whirlwind; battle_cry] 0.

Definition heal_spell : Skill.t :=
  Skill.mk "Heal" "Restore HP based on 80% of attack" 15 "heal" 0.8 0 None.

Definition Wizard (name : string) : Player.t :=
  Player.mk (Entity.mk name (Stats.mk 80 80 60 60 12 10 1 0 []) "") "Wizard" []
    [Skill.mk "Fireball" "Fire spell dealing 160% damage" 12 "damage" 1.6 0
       None;
     Skill.mk "Poison Cloud" "Poison enemy for 50% attack/turn for 3 turns" 15
       "dot" 0.5 3 (Some "Poison");
     Skill.mk "Flame Curse" "Burn enemy for 40% attack/turn for 4 turns" 18
       "dot" 0.4 4 (Some "Burn");
     heal_spell]
    0.

Definition Ranger (name : string) : Player.t :=
  Player.mk (Entity.mk name (Stats.mk 100 100 40 40 15 12 1 0 []) "") "Ranger"
    []
    [Skill.mk "Rapid Shot" "Quick attack dealing 130% damage" 8 "damage" 1.3 0
       None;
     Skill.mk "Piercing Arrow" "Armor-piercing shot dealing 180% damage" 15
       "damage" 1.8 0 None]
    0.

Definition Thief (name : string) : Player.t :=
  Player.mk (Entity.mk name (Stats.mk 90 90 35 35 14 15 1 0 []) "") "Thief" []
    [Skill.mk "Backstab" "Critical strike dealing 170% damage" 10 "damage" 1.7
       0 None;
     Skill.mk "Poison Blade"
       "Attack that poisons for 60% attack/turn for 3 turns" 12 "dot" 0.6 3
       (Some "Poison");
     Skill.mk "Stunning Strike" "Stun enemy for 1 turn" 15 "stun" 0.0 1 None]
    0.

Definition goblin_scout : Enemy.t :=
  Enemy.mk (Entity.mk "Goblin Scout" (Stats.mk 40 40 10 10 10 8 1 0 []) "")
           30 15.

Definition orc_warrior : Enemy.t :=
  Enemy.mk (Entity.mk "Orc Warrior" (Stats.mk 80 80 20 20 18 6 3 0 []) "")
           75 35.

Definition skeleton_archer : Enemy.t :=
  Enemy.mk (Entity.mk "Skeleton Archer" (Stats.mk 60 60 15 15 14 10 2 0 []) "")
           50 25.

Definition slime : Enemy.t :=
  Enemy.mk (Entity.mk "Slime" (Stats.mk 30 30 5 5 6 4 1 0 []) "") 20 10.

Definition create_enemy_database : list Enemy.t :=
  [goblin_scout; orc_warrior; skeleton_archer; slime].

(** * The vocabulary of the statements *)

(** ** Effects by name *)

Definition names (l : list StatusEffect.t) : list string :=
  List.map StatusEffect.name l.

(** The entries of [l] with the name [n], and the others. *)
Definition named (n : string) (l : list StatusEffect.t)
    : list StatusEffect.t :=
  List.filter (fun x => String.eqb (StatusEffect.name x) n) l.

Definition others (n : string) (l : list StatusEffect.t)
    : list StatusEffect.t :=
  List.filter (fun x => negb (String.eqb (StatusEffect.name x) n)) l.

Definition is_dot (e : StatusEffect.t) : bool :=
  String.eqb (StatusEffect.effect_type e) "damage_over_time".

(** What an entry [x] becomes when [e], of the same name, is applied. *)
Definition refresh (e x : StatusEffect.t) : StatusEffect.t :=
  StatusEffect.mk (StatusEffect.name x) (StatusEffect.effect_type x)
    (StatusEffect.stat_affected x)
    (if is_dot e then StatusEffect.power x + StatusEffect.power e
     else StatusEffect.power x)
    (Z.max (StatusEffect.duration x) (StatusEffect.duration e)).

(** The entry named as [e] once [e] is applied, from the entries of that
    name before. *)
Definition entry_after (e : StatusEffect.t) (old : list StatusEffect.t)
    : StatusEffect.t :=
  match old with
  | [] => e
  | x :: _ => refresh e x
  end.

(** ** One tick, effect by effect *)

(** An effect one turn older, and whether it is over by then. *)
Definition aged (e : StatusEffect.t) : StatusEffect.t :=
  StatusEffect.with_duration (StatusEffect.duration e - 1) e.

Definition expired (e : StatusEffect.t) : bool :=
  negb (0 <? StatusEffect.duration e - 1).

(** The [hp] left by the damage of one effect. *)
Definition dot_hit (hp : Z) (e : StatusEffect.t) : Z :=
  if is_dot e then Z.max 0 (hp - Z.max 1 (StatusEffect.power e)) else hp.

(** The messages of one effect: its damage first, its expiry second. *)
Definition effect_messages (e : StatusEffect.t) : list string :=
  (if is_dot e
   then ["[DOT] " +:+ StatusEffect.name e +:+ " deals " +:+
         str (Z.max 1 (StatusEffect.power e)) +:+ " damage!"]
   else [])
  ++ (if expired e
      then ["[*] " +:+ StatusEffect.name e +:+ " wore off!"]
      else []).

Definition expired_names (l : list StatusEffect.t) : list string :=
  List.map StatusEffect.name (List.filter expired l).

(** The state of the pass once the first [k] effects were visited: these
    are aged and have dealt their damage, the others are untouched, and
    none has left the list. *)
Definition pass_state (self : Stats.t) (k : nat) : Stats.tick_state :=
  let l := Stats.status_effects self in
  Stats.mk_tick
    (Stats.with_status_effects
       (List.map aged (take k l) ++ drop k l)
       (Stats.with_hp (List.fold_left dot_hit (take k l) (Stats.hp self))
                      self))
    (List.flat_map effect_messages (take k l))
    (expired_names (take k l)).

(** The names in [removed] are gone from [l]. *)
Definition without (removed : list string) (l : list StatusEffect.t)
    : list StatusEffect.t :=
  List.filter
    (fun e => negb (List.existsb (String.eqb (StatusEffect.name e)) removed))
    l.

(** ** One pass of the combat loop, in two parts *)

(** The pass up to, and without, the end-of-turn processing:
    [Fall] is where the code goes on to [_end_of_turn]. *)
Definition pass_before_tick (self : CombatSystem.t)
    : IO CombatSystem.flow :=
  let self := CombatSystem.with_turn (CombatSystem.turn self + 1) self in
  if Stats.is_stunned (Player.stats (CombatSystem.player self)) then
    let self :=
      CombatSystem.append
        (Player.name (CombatSystem.player self) +:+
         " is stunned and cannot act!") self in
    _ <- input ;;
    self <- CombatSystem._enemy_turn self ;;
    ret (CombatSystem.Fall self)
  else
    line <- input ;;
    CombatSystem.player_turn (strip line) self.

(** The combat state a pass ends in. *)
Definition flow_state (f : CombatSystem.flow) : CombatSystem.t :=
  match f with
  | CombatSystem.Fall self
  | CombatSystem.Continue self
  | CombatSystem.Return _ self => self
  end.

(** * Sample states *)

(** The slime at full health, and beaten to 0. *)
Definition slime_stats : Stats.t := Enemy.stats slime.
Definition dead_stats : Stats.t := Stats.with_hp 0 slime_stats.

Definition poison (power duration : Z) : StatusEffect.t :=
  StatusEffect.mk "Poison" "damage_over_time" "" power duration.

(** A goblin's container with a Poison, and with three effects. *)
Definition poisoned_stats : Stats.t :=
  Stats.with_status_effects [poison 5 2] (Enemy.stats goblin_scout).

Definition burning_stats : Stats.t :=
  Stats.with_status_effects
    [poison 5 1; StatusEffect.mk "Battle Cry" "stat_mod" "attack" 5 3;
     StatusEffect.mk "Burn" "damage_over_time" "" (-2) 2]
    (Enemy.stats goblin_scout).

(** The generator that always returns one half: attacks and damage skills
    then deal exactly their base amount. *)
Definition midpoint : nat -> Q := fun _ => 0.5%Q.

(** A warrior down to 5 HP attacks a poisoned goblin. *)
Definition last_stand : CombatSystem.t :=
  CombatSystem.init
    (Player.with_stats (Stats.with_hp 5 (Player.stats (Warrior "Hero")))
       (Warrior "Hero"))
    (Enemy.with_stats
       (Stats.with_status_effects [poison 5 3] (Enemy.stats goblin_scout))
       goblin_scout).

Definition last_stand_keys : Env := mk_env ["1"; ""] midpoint 0.

(** The combat right after the goblin's answer, before any tick. *)
Definition last_stand_blow : CombatSystem.t :=
  Eval vm_compute in
    match pass_before_tick last_stand last_stand_keys with
    | Some (f, _) => flow_state f
    | None => last_stand
    end.

(** A wizard heals in front of a wounded goblin: key 4 of the skill menu. *)
Definition wizard_heals : CombatSystem.t :=
  CombatSystem.init
    (Player.with_stats (Stats.with_hp 30 (Player.stats (Wizard "Merlin")))
       (Wizard "Merlin"))
    (Enemy.with_stats (Stats.with_hp 22 (Enemy.stats goblin_scout))
       goblin_scout).

(** The warrior once Battle Cry is in effect. *)
Definition buffed_warrior : Player.t :=
  Player.with_stats
    (Stats.mk 120 120 15 30 18 8 1 0
       [StatusEffect.mk "Battle Cry" "stat_mod" "attack" 5 3])
    (Warrior "Hero").

(** * The vocabulary of the further properties *)

(** ** Sums of modifiers *)

Definition sumZ (l : list Z) : Z := List.fold_right Z.add 0 l.

(** What one effect adds to the stat [stat_name]. *)
Definition modifier_of (stat_name : string) (e : StatusEffect.t) : Z :=
  if String.eqb (StatusEffect.effect_type e) "stat_mod"
     && String.eqb (StatusEffect.stat_affected e) stat_name
  then StatusEffect.power e
  else 0.

(** ** Several ticks in a row *)

(** [k] calls of [tick_status_effects]; the messages are dropped. *)
Fixpoint ticks (k : nat) (s : Stats.t) : Stats.t :=
  match k with
  | O => s
  | S k => ticks k (Stats.tick_status_effects s).2
  end.

(** An effect [k] turns older, and whether it is still there after [k]
    ticks. *)
Definition aged_by (k : nat) (e : StatusEffect.t) : StatusEffect.t :=
  StatusEffect.with_duration (StatusEffect.duration e - Z.of_nat k) e.

Definition lasts (k : nat) (e : StatusEffect.t) : bool :=
  (k =? 0)%nat || (Z.of_nat k <? StatusEffect.duration e).

Definition is_stun (e : StatusEffect.t) : bool :=
  String.eqb (StatusEffect.effect_type e) "stun".

(** The damage of one effect at one tick, and in [k] ticks: a DOT effect
    hits at every tick it sees, and it sees the first one whatever its
    duration. *)
Definition dot_once (e : StatusEffect.t) : Z :=
  if is_dot e then Z.max 1 (StatusEffect.power e) else 0.

Definition dot_total (k : nat) (e : StatusEffect.t) : Z :=
  if is_dot e
  then Z.max 1 (StatusEffect.power e)
       * Z.min (Z.of_nat k) (Z.max 1 (StatusEffect.duration e))
  else 0.

(** ** Skills *)

(** The skill types that [use_skill] knows. *)
Definition known_skill_types : list string :=
  ["damage"; "heal"; "buff"; "debuff"; "dot"; "stun"].

(** The environment once one random number was drawn. *)
Definition after_draw (w : Env) : Env :=
  mk_env (stdin w) (rng w) (S (drawn w)).

(** ** Items *)

(** [item] goes by the name [item_name], whatever the case of the
    letters. *)
Definition called (item_name : string) (item : Item.t) : Prop :=
  lower (Item.name item) = lower item_name.


(** ** Text *)

(** The number of line feeds of a text. *)
Fixpoint line_feeds (s : string) : nat :=
  match s with
  | EmptyString => O
  | String c rest => (if Ascii.eqb c "010" then 1 else 0) + line_feeds rest
  end.

(** The last character of a text, if it has one. *)
Fixpoint last_char (s : string) : option ascii :=
  match s with
  | EmptyString => None
  | String c rest =>
      match last_char rest with
      | None => Some c
      | found => found
      end
  end.

(** ** Further sample states *)




(** A warrior with 5 MP left: too few for any skill. *)
Definition tired_warrior : Player.t :=
  Player.with_stats (Stats.with_mp 5 (Player.stats (Warrior "Hero")))
    (Warrior "Hero").

Definition stunning_strike : Skill.t :=
  Skill.mk "Stunning Strike" "Stun enemy for 1 turn" 15 "stun" 0.0 1 None.

(** Fights against a goblin. *)
Definition warrior_duel : CombatSystem.t :=
  CombatSystem.init (Warrior "Hero") goblin_scout.


Definition tired_duel : CombatSystem.t :=
  CombatSystem.init tired_warrior goblin_scout.

Definition thief_duel : CombatSystem.t :=
  CombatSystem.init (Thief "Shade") goblin_scout.

(** The keys [l] typed ahead, with the generator [midpoint]; and the
    generator that always returns one quarter, with which a flight
    succeeds. *)
Definition typed (l : list string) : Env := mk_env l midpoint 0.

Definition quarter : nat -> Q := fun _ => 0.25%Q.

(** An effect of a type the game never creates. *)
Definition cursed_stats : Stats.t :=
  Stats.with_status_effects [StatusEffect.mk "Curse" "curse" "" 1 2]
    slime_stats.

(** A picture of two lines. *)
Definition two_lines : string := "ab" +:+ String "010" "cdefghij".
(** * Properties *)

(** ** Resource and damage primitives *)

Section Primitives.

Variable self : Stats.t.

(** C5, as amended.  [take_damage] returns [max 1 damage] and sets [hp] to
    [max 0 (hp - max 1 damage)], whatever the sign and the size of
    [damage]; so the new [hp] is never below 0, and it is at least 1 lower
    than the old one whenever the old one is at least 1. *)
Theorem take_damage_floor_and_clamp (damage : Z) :
  Stats.take_damage self damage
  = (Z.max 1 damage,
     Stats.with_hp (Z.max 0 (Stats.hp self - Z.max 1 damage)) self)
  /\ 0 <= Stats.hp (Stats.take_damage self damage).2
  /\ (1 <= Stats.hp self ->
      Stats.hp (Stats.take_damage self damage).2 <= Stats.hp self - 1).
Proof.
  split; [reflexivity|].
  destruct self; simpl; lia.
Qed.

(** C6.  With [hp <= max_hp], [heal] sets [hp] to
    [min max_hp (hp + amount)] and returns [max 1 amount]; the new [hp]
    does not exceed [max_hp]; the returned value comes from the raw
    amount, so it is more than the [hp] gained whenever the cap cuts the
    heal. *)
Theorem heal_caps_hp_reports_raw (amount : Z) :
  Stats.hp self <= Stats.max_hp self ->
  Stats.heal self amount
  = (Z.max 1 amount,
     Stats.with_hp (Z.min (Stats.max_hp self) (Stats.hp self + amount)) self)
  /\ Stats.hp (Stats.heal self amount).2 <= Stats.max_hp self
  /\ (Stats.max_hp self < Stats.hp self + amount ->
      Stats.hp (Stats.heal self amount).2 - Stats.hp self
      < (Stats.heal self amount).1).
Proof.
  intros Hcap. split; [reflexivity|].
  destruct self; simpl in *; lia.
Qed.

(** C7.  [use_mp] succeeds exactly when [mp >= amount]; it then deducts
    [amount] from [mp] and touches nothing else; when [mp < amount] it
    fails and leaves the whole container as it was. *)
Theorem use_mp_iff_enough (amount : Z) :
  ((Stats.use_mp self amount).1 = true <-> amount <= Stats.mp self)
  /\ (amount <= Stats.mp self ->
      Stats.use_mp self amount
      = (true, Stats.with_mp (Stats.mp self - amount) self))
  /\ (Stats.mp self < amount -> Stats.use_mp self amount = (false, self)).
Proof.
  unfold Stats.use_mp.
  destruct (Z.leb_spec amount (Stats.mp self)); simpl.
  - repeat split; auto; lia.
  - repeat split; try discriminate; lia.
Qed.

(** C10.  With [hp > 0] and [amount <= 0], [heal] returns 1; it sets [hp]
    to [hp + amount] when that does not exceed [max_hp]; a negative
    amount strictly lowers [hp], and below 0 as soon as [hp + amount] is
    negative: there is no lower clamp. *)
Theorem heal_nonpositive_amount (amount : Z) :
  0 < Stats.hp self -> amount <= 0 ->
  (Stats.heal self amount).1 = 1
  /\ (Stats.hp self + amount <= Stats.max_hp self ->
      Stats.hp (Stats.heal self amount).2 = Stats.hp self + amount)
  /\ (amount < 0 -> Stats.hp (Stats.heal self amount).2 < Stats.hp self)
  /\ (Stats.hp self + amount < 0 ->
      Stats.hp (Stats.heal self amount).2 < 0).
Proof.
  intros Hhp Hamount. destruct self; simpl in *.
  repeat split; lia.
Qed.

End Primitives.

(** C5, the claim as it was stated fails: at [hp = 0] a hit of 5 leaves
    [hp] at 0, it is not lowered by 1. *)
Lemma take_damage_at_zero_hp :
  ~ (forall (s : Stats.t) (damage : Z),
       Stats.hp (Stats.take_damage s damage).2 <= Stats.hp s - 1)
  /\ Stats.take_damage dead_stats 5 = (5, dead_stats).
Proof.
  split; [|reflexivity].
  intros H. specialize (H dead_stats 5). vm_compute in H. by apply H.
Qed.

Lemma take_damage_floor_and_clamp_witness :
  1 <= Stats.hp slime_stats
  /\ Stats.take_damage slime_stats (-7) = (1, Stats.with_hp 29 slime_stats)
  /\ Stats.hp (Stats.take_damage slime_stats (-7)).2
     <= Stats.hp slime_stats - 1.
Proof.
  destruct (take_damage_floor_and_clamp slime_stats (-7)) as (Heq & _ & Hlow).
  split; [vm_compute; discriminate|].
  split; [exact Heq|].
  apply Hlow. vm_compute; discriminate.
Defined.

Lemma heal_caps_hp_reports_raw_witness :
  Stats.hp (Stats.mk 10 50 0 0 5 5 1 0 []) <= 50
  /\ Stats.heal (Stats.mk 10 50 0 0 5 5 1 0 []) 100
     = (100, Stats.mk 50 50 0 0 5 5 1 0 []).
Proof.
  split; [vm_compute; discriminate|].
  apply (heal_caps_hp_reports_raw (Stats.mk 10 50 0 0 5 5 1 0 []) 100).
  vm_compute; discriminate.
Defined.

Lemma use_mp_iff_enough_witness :
  Stats.use_mp slime_stats 6 = (false, slime_stats).
Proof.
  apply (use_mp_iff_enough slime_stats 6). vm_compute. reflexivity.
Defined.

Lemma heal_nonpositive_amount_witness :
  0 < Stats.hp slime_stats /\ -40 <= 0
  /\ (Stats.heal slime_stats (-40)).1 = 1
  /\ Stats.hp (Stats.heal slime_stats (-40)).2 < 0.
Proof.
  split; [reflexivity|]. split; [vm_compute; discriminate|].
  destruct (heal_nonpositive_amount slime_stats (-40)) as (H1 & _ & _ & H4);
    [reflexivity | vm_compute; discriminate |].
  split; [exact H1 | apply H4; reflexivity].
Defined.

(** ** Progression *)

(** On a non-negative integer, [int(n * 0.1)] is the floor of [n * 0.1]. *)
Lemma py_int_tenth (n : Z) :
  0 <= n -> py_int (inject_Z n * 0.1) = Qfloor (inject_Z n * 0.1).
Proof.
  intros Hn. unfold py_int, Qfloor. simpl.
  apply Z.quot_div_nonneg; lia.
Qed.

(** C8.  [gain_exp] adds the amount to [exp] and levels up at most once,
    however far the new [exp] is above [level * 100]; a level-up adds 1 to
    [level] and to [speed], adds the floor of a tenth to [max_hp], [max_mp]
    and [attack], and refills [hp] and [mp]; below the threshold only [exp]
    changes; a level 1 player with no [exp] who gains 100 is at level 2. *)
Theorem gain_exp_single_level_up (self : Player.t) (amount : Z) :
  let s := Player.stats self in
  let s' := Player.stats (Player.gain_exp self amount) in
  0 <= Stats.max_hp s -> 0 <= Stats.max_mp s -> 0 <= Stats.attack s ->
  Player.gain_exp self amount = Player.with_stats s' self
  /\ Stats.exp s' = Stats.exp s + amount
  /\ Stats.status_effects s' = Stats.status_effects s
  /\ (Stats.level s * 100 <= Stats.exp s + amount ->
      Stats.level s' = Stats.level s + 1
      /\ Stats.max_hp s'
         = Stats.max_hp s + Qfloor (inject_Z (Stats.max_hp s) * 0.1)
      /\ Stats.max_mp s'
         = Stats.max_mp s + Qfloor (inject_Z (Stats.max_mp s) * 0.1)
      /\ Stats.hp s' = Stats.max_hp s'
      /\ Stats.mp s' = Stats.max_mp s'
      /\ Stats.attack s'
         = Stats.attack s + Qfloor (inject_Z (Stats.attack s) * 0.1)
      /\ Stats.speed s' = Stats.speed s + 1)
  /\ (Stats.exp s + amount < Stats.level s * 100 ->
      s' = Stats.with_exp (Stats.exp s + amount) s)
  /\ Stats.level s' <= Stats.level s + 1
  /\ (Stats.level s = 1 -> Stats.exp s = 0 -> amount = 100 ->
      Stats.level s' = 2).
Proof.
  intros s s' Hhp Hmp Hatk. subst s s'.
  rewrite <- !py_int_tenth by assumption.
  destruct self as [[name s art] cls inv sk gold].
  destruct s as [hp max_hp mp max_mp attack speed level exp effects].
  unfold Player.gain_exp, Player.stats in *; cbn [Player.entity
    Entity.stats Player.with_stats Entity.with_stats Stats.with_exp
    Stats.exp Stats.level Stats.hp Stats.max_hp Stats.mp Stats.max_mp
    Stats.attack Stats.speed Stats.status_effects] in *.
  destruct (Z.leb_spec (level * 100) (exp + amount)) as [Hup|Hno].
  - repeat split; try reflexivity; try (cbn; lia).
  - repeat split; try reflexivity; try (cbn; lia).
Qed.

Lemma gain_exp_single_level_up_witness :
  Player.stats (Player.gain_exp (Warrior "Hero") 1000)
  = Stats.mk 132 132 33 33 19 9 2 1000 [].
Proof.
  destruct (gain_exp_single_level_up (Warrior "Hero") 1000)
    as (Heq & _); [vm_compute; discriminate ..|].
  rewrite Heq. reflexivity.
Defined.

(** ** The stacking rule of [add_status_effect] *)

Section Stacking.

Implicit Types (e x : StatusEffect.t) (l : list StatusEffect.t)
               (n : string) (s : Stats.t).

Lemma named_not_in n l : n ∉ names l -> named n l = [].
Proof.
  induction l as [|x l IH]; [done|]; simpl; intros Hn.
  apply not_elem_of_cons in Hn as [Hx Hl].
  destruct (String.eqb_spec (StatusEffect.name x) n); [congruence|auto].
Qed.

Lemma named_nil_not_in n l : named n l = [] -> n ∉ names l.
Proof.
  induction l as [|x l IH]; simpl; [intros _; apply not_elem_of_nil|].
  destruct (String.eqb_spec (StatusEffect.name x) n); [done|].
  intros H. apply not_elem_of_cons; split; [congruence | auto].
Qed.

Lemma merge_none e l :
  named (StatusEffect.name e) l = [] -> Stats.merge_status_effect e l = None.
Proof.
  induction l as [|x l IH]; [done|]; simpl.
  destruct (String.eqb_spec (StatusEffect.name x) (StatusEffect.name e));
    [done|].
  intros H. by rewrite IH.
Qed.

Lemma merge_some e l x t :
  NoDup (names l) -> named (StatusEffect.name e) l = x :: t ->
  exists l', Stats.merge_status_effect e l = Some l'
    /\ named (StatusEffect.name e) l' = [refresh e x]
    /\ others (StatusEffect.name e) l' = others (StatusEffect.name e) l
    /\ names l' = names l.
Proof.
  induction l as [|y l IH]; [done|]; simpl.
  intros Hnd%NoDup_cons. destruct Hnd as [Hy Hnd].
  destruct (String.eqb_spec (StatusEffect.name y) (StatusEffect.name e))
    as [Heq|Hne]; simpl.
  - intros [= -> <-]. eexists; split; [reflexivity|].
    unfold refresh, is_dot. simpl.
    assert (named (StatusEffect.name e) l = []) as Hnil
      by (apply named_not_in; congruence).
    destruct (String.eqb (StatusEffect.effect_type e) "damage_over_time");
      simpl; rewrite Heq, String.eqb_refl; simpl; rewrite Hnil, <- Heq;
      repeat split; reflexivity.
  - intros H. destruct (IH Hnd H) as (l' & -> & Hn & Ho & Hnames).
    eexists; split; [reflexivity|]. simpl.
    destruct (String.eqb_spec (StatusEffect.name y) (StatusEffect.name e));
      [done|]; simpl.
    by rewrite Hn, Ho, Hnames.
Qed.

(** One application of [add_status_effect] on a container with at most
    one entry per name. *)
Lemma add_status_effect_step s e :
  let n := StatusEffect.name e in
  let s' := Stats.add_status_effect s e in
  NoDup (names (Stats.status_effects s)) ->
  NoDup (names (Stats.status_effects s'))
  /\ named n (Stats.status_effects s')
     = [entry_after e (named n (Stats.status_effects s))]
  /\ others n (Stats.status_effects s') = others n (Stats.status_effects s)
  /\ (named n (Stats.status_effects s) = [] ->
      Stats.status_effects s' = Stats.status_effects s ++ [e])
  /\ (named n (Stats.status_effects s) <> [] ->
      length (Stats.status_effects s') = length (Stats.status_effects s)).
Proof.
  intros n s' Hnd. subst n s'. unfold Stats.add_status_effect.
  destruct (named (StatusEffect.name e) (Stats.status_effects s))
    as [|x t] eqn:Hold.
  - rewrite (merge_none _ _ Hold). destruct s as [? ? ? ? ? ? ? ? l].
    simpl in *. unfold names, named, others in *.
    rewrite List.map_app, !List.filter_app, Hold. simpl.
    rewrite String.eqb_refl. simpl. rewrite app_nil_r.
    repeat split; try done.
    apply NoDup_app; repeat split; [done| |apply NoDup_singleton].
    intros m Hm ->%list_elem_of_singleton.
    by apply (named_nil_not_in _ _ Hold).
  - destruct (merge_some e _ x t Hnd Hold) as (l' & -> & Hn & Ho & Hnames).
    destruct s as [? ? ? ? ? ? ? ? l]. simpl in *.
    rewrite Hnames. repeat split; try done.
    intros _. unfold names in Hnames.
    by rewrite <- (length_map StatusEffect.name l'), Hnames, length_map.
Qed.

(** C4, as amended.  On a container with at most one entry per name,
    applying two effects of one name leaves exactly one entry with that
    name, and the other entries as they were.  When both are DOT effects
    and the container had no entry of that name, the entry has the sum of
    the two powers and the larger of the two durations; when it had one,
    that entry's power is part of the sum and its duration part of the
    maximum.  When the second effect is not a DOT effect, it only
    refreshes the duration of the entry to the larger one, leaves the
    power alone and adds no entry. *)
Theorem add_status_effect_stacking s e1 e2 :
  let n := StatusEffect.name e1 in
  let old := named n (Stats.status_effects s) in
  let s1 := Stats.add_status_effect s e1 in
  let s2 := Stats.add_status_effect s1 e2 in
  NoDup (names (Stats.status_effects s)) ->
  StatusEffect.name e2 = n ->
  exists x1 x2,
    named n (Stats.status_effects s1) = [x1]
    /\ named n (Stats.status_effects s2) = [x2]
    /\ others n (Stats.status_effects s2) = others n (Stats.status_effects s)
    /\ NoDup (names (Stats.status_effects s2))
    /\ length (Stats.status_effects s2) = length (Stats.status_effects s1)
    /\ StatusEffect.duration x2
       = Z.max (StatusEffect.duration x1) (StatusEffect.duration e2)
    /\ (is_dot e2 = false -> StatusEffect.power x2 = StatusEffect.power x1)
    /\ (is_dot e1 = true -> is_dot e2 = true ->
        match old with
        | [] =>
            StatusEffect.power x2
            = StatusEffect.power e1 + StatusEffect.power e2
            /\ StatusEffect.duration x2
               = Z.max (StatusEffect.duration e1) (StatusEffect.duration e2)
        | x0 :: _ =>
            StatusEffect.power x2
            = StatusEffect.power x0 + StatusEffect.power e1
              + StatusEffect.power e2
            /\ StatusEffect.duration x2
               = Z.max (Z.max (StatusEffect.duration x0)
                              (StatusEffect.duration e1))
                       (StatusEffect.duration e2)
        end).
Proof.
  intros n old s1 s2 Hnd Hname.
  destruct (add_status_effect_step s e1 Hnd) as (Hnd1 & Hn1 & Ho1 & _ & _).
  destruct (add_status_effect_step s1 e2 Hnd1) as (Hnd2 & Hn2 & Ho2 & _ & Hl).
  fold s1 in Hn1, Ho1. fold s2 in Hnd2, Hn2, Ho2, Hl.
  rewrite Hname in Hn2, Ho2, Hl. fold n in Hn1, Ho1. fold old in Hn1.
  rewrite Hn1 in Hn2, Hl. simpl in Hn2.
  exists (entry_after e1 old), (refresh e2 (entry_after e1 old)).
  repeat split; try done.
  - congruence.
  - by apply Hl.
  - unfold refresh; simpl. by intros ->.
  - intros Hd1 Hd2. unfold refresh, entry_after.
    destruct old as [|x0 t]; simpl; rewrite Hd2; [done|].
    unfold refresh. simpl. by rewrite Hd1.
Qed.

End Stacking.

(** C4, the claim as it was stated fails: on a container that already
    carries a Poison of power 5 for 2 turns, two Poisons of power 3 for 1
    turn leave one entry of power 11 for 2 turns, not of power 6 for 1. *)
Lemma dot_twice_on_existing_entry :
  Stats.status_effects
    (Stats.add_status_effect
       (Stats.add_status_effect poisoned_stats (poison 3 1)) (poison 3 1))
  = [poison 11 2]
  /\ ~ (forall (s : Stats.t) (e1 e2 : StatusEffect.t),
          NoDup (names (Stats.status_effects s)) ->
          is_dot e1 = true -> is_dot e2 = true ->
          StatusEffect.name e1 = StatusEffect.name e2 ->
          exists x,
            named (StatusEffect.name e1)
              (Stats.status_effects
                 (Stats.add_status_effect (Stats.add_status_effect s e1) e2))
            = [x]
            /\ StatusEffect.power x
               = StatusEffect.power e1 + StatusEffect.power e2
            /\ StatusEffect.duration x
               = Z.max (StatusEffect.duration e1) (StatusEffect.duration e2)).
Proof.
  split; [reflexivity|].
  intros H.
  destruct (H poisoned_stats (poison 3 1) (poison 3 1)) as (x & Hx & Hp & _);
    [apply NoDup_singleton | reflexivity .. |].
  vm_compute in Hx. injection Hx as <-. discriminate Hp.
Qed.

Lemma add_status_effect_stacking_witness :
  NoDup (names (Stats.status_effects slime_stats))
  /\ exists x2,
       named "Poison"
         (Stats.status_effects
            (Stats.add_status_effect
               (Stats.add_status_effect slime_stats (poison 3 1))
               (poison 4 3)))
       = [x2]
       /\ StatusEffect.power x2 = 7 /\ StatusEffect.duration x2 = 3.
Proof.
  split; [apply NoDup_nil_2|].
  destruct (add_status_effect_stacking slime_stats (poison 3 1) (poison 4 3))
    as (x1 & x2 & _ & H2 & _ & _ & _ & _ & _ & Hdot);
    [apply NoDup_nil_2 | reflexivity |].
  exists x2. split; [exact H2|].
  apply Hdot; reflexivity.
Defined.

(** ** The end-of-turn tick of a container *)

Section Tick.

Implicit Types (e : StatusEffect.t) (l : list StatusEffect.t)
               (self : Stats.t) (k : nat).

Lemma tick_body_step self k e :
  Stats.status_effects self !! k = Some e ->
  Stats.tick_body (pass_state self k) k = pass_state self (S k).
Proof.
  intros Hk. pose proof (lookup_lt_Some _ _ _ Hk) as Hlt.
  unfold Stats.tick_body, pass_state.
  cbn [Stats.tick_self Stats.status_effects Stats.with_status_effects
       Stats.tick_messages Stats.effects_to_remove].
  assert (length (List.map aged (take k (Stats.status_effects self))) = k)
    as Hlen by (rewrite length_map, length_take; lia).
  rewrite lookup_app_r, Hlen, Nat.sub_diag by lia.
  rewrite (drop_S _ _ _ Hk). cbn [lookup list_lookup].
  rewrite (take_S_r _ _ _ Hk).
  unfold expired_names.
  rewrite List.map_app, List.fold_left_app, List.flat_map_app,
    List.filter_app, List.map_app, <- app_assoc.
  cbn [List.map List.fold_left List.flat_map List.filter app].
  unfold effect_messages, dot_hit, expired, is_dot, StatusEffect.tick,
    Stats.take_damage.
  cbn [StatusEffect.duration StatusEffect.with_duration StatusEffect.name
       aged].
  destruct (String.eqb (StatusEffect.effect_type e) "damage_over_time");
    destruct (0 <? StatusEffect.duration e - 1);
    cbn [negb Stats.status_effects Stats.with_status_effects Stats.with_hp
         Stats.hp Stats.max_hp Stats.mp Stats.max_mp Stats.attack
         Stats.speed Stats.level Stats.exp List.map app];
    rewrite insert_app_r_alt, Hlen, Nat.sub_diag by lia;
    cbn [insert list_insert];
    rewrite ?app_nil_r, <- ?app_assoc; reflexivity.
Qed.

Lemma tick_pass_prefix self k :
  (k <= length (Stats.status_effects self))%nat ->
  List.fold_left Stats.tick_body (List.seq 0 k) (Stats.mk_tick self [] [])
  = pass_state self k.
Proof.
  induction k as [|k IH]; intros Hk.
  - unfold pass_state. rewrite take_0, drop_0. by destruct self.
  - rewrite List.seq_S, List.fold_left_app, IH by lia. simpl.
    destruct (lookup_lt_is_Some_2 (Stats.status_effects self) k)
      as [e He]; [lia|].
    by apply tick_body_step with e.
Qed.

Lemma without_nil l : without [] l = l.
Proof. induction l as [|e l IH]; simpl; congruence. Qed.

Lemma without_cons n removed l :
  without removed
    (List.filter (fun e => negb (String.eqb (StatusEffect.name e) n)) l)
  = without (n :: removed) l.
Proof.
  induction l as [|e l IH]; [done|]. simpl.
  destruct (String.eqb (StatusEffect.name e) n); simpl; [done|].
  by rewrite IH.
Qed.

Lemma remove_all removed self :
  List.fold_left Stats.remove_status_effect removed self
  = Stats.with_status_effects (without removed (Stats.status_effects self))
      self.
Proof.
  revert self. induction removed as [|n removed IH]; intros self; simpl.
  - rewrite without_nil. by destruct self.
  - rewrite IH. unfold Stats.remove_status_effect.
    destruct self; simpl. by rewrite without_cons.
Qed.

Lemma same_name_same_effect l e e' :
  NoDup (names l) -> e ∈ l -> e' ∈ l ->
  StatusEffect.name e = StatusEffect.name e' -> e = e'.
Proof.
  induction l as [|x l IH]; simpl; intros Hnd He He' Hn.
  - by apply elem_of_nil in He.
  - apply NoDup_cons in Hnd as [Hx Hnd].
    apply elem_of_cons in He as [->|He];
      apply elem_of_cons in He' as [->|He']; auto.
    + exfalso. apply Hx. rewrite Hn. unfold names.
      apply list_elem_of_In, List.in_map, list_elem_of_In, He'.
    + exfalso. apply Hx. rewrite <- Hn. unfold names.
      apply list_elem_of_In, List.in_map, list_elem_of_In, He.
Qed.

Lemma without_expired_names l :
  NoDup (names l) ->
  without (expired_names l) (List.map aged l)
  = List.map aged (List.filter (fun e => negb (expired e)) l).
Proof.
  intros Hnd.
  assert (forall e, e ∈ l ->
            List.existsb (String.eqb (StatusEffect.name e))
              (expired_names l) = expired e) as Hin.
  { intros e He. apply eq_true_iff_eq. rewrite List.existsb_exists.
    unfold expired_names. split.
    - intros (n & (e' & <- & [He' Hex]%List.filter_In)%List.in_map_iff
                & Hn%String.eqb_eq).
      apply list_elem_of_In in He'.
      by rewrite (same_name_same_effect l e e' Hnd He He' Hn).
    - intros Hex. exists (StatusEffect.name e).
      split; [|apply String.eqb_refl].
      apply List.in_map, List.filter_In.
      split; [by apply list_elem_of_In | done]. }
  revert Hin. generalize (expired_names l) as removed.
  clear Hnd. induction l as [|x l IH]; intros removed Hin; [done|].
  simpl. change (StatusEffect.name (aged x)) with (StatusEffect.name x).
  rewrite (Hin x) by apply list_elem_of_here.
  destruct (expired x); simpl; rewrite IH; auto.
  all: intros e He; apply Hin; by apply list_elem_of_further.
Qed.

(** What one call of [tick_status_effects] returns and leaves. *)
Lemma tick_status_effects_result self :
  let l := Stats.status_effects self in
  Stats.tick_status_effects self
  = (List.flat_map effect_messages l,
     Stats.with_status_effects
       (without (expired_names l) (List.map aged l))
       (Stats.with_hp (List.fold_left dot_hit l (Stats.hp self)) self)).
Proof.
  intros l. unfold Stats.tick_status_effects, Stats.tick_pass.
  rewrite tick_pass_prefix by lia. unfold pass_state. fold l.
  rewrite firstn_all, drop_all, app_nil_r.
  cbn [Stats.tick_messages Stats.effects_to_remove Stats.tick_self].
  rewrite remove_all. by destruct self.
Qed.

(** C9.  One call of [tick_status_effects] visits every effect that is on
    the container when it starts, once and front to back: a DOT effect
    deals its power through [take_damage] and says so, then the effect is
    one turn older, then it says so if it is over.  After [k] visits the
    list still has all its entries, the first [k] aged; the names of the
    effects that are over are removed once the pass is complete.  With at
    most one entry per name, what is left are the aged effects that are
    not over. *)
Theorem tick_visits_each_effect_once self :
  let l := Stats.status_effects self in
  (forall k, (k <= length l)%nat ->
     List.fold_left Stats.tick_body (List.seq 0 k) (Stats.mk_tick self [] [])
     = pass_state self k)
  /\ Stats.tick_status_effects self
     = (List.flat_map effect_messages l,
        Stats.with_status_effects
          (without (expired_names l) (List.map aged l))
          (Stats.with_hp (List.fold_left dot_hit l (Stats.hp self)) self))
  /\ (NoDup (names l) ->
      Stats.status_effects (Stats.tick_status_effects self).2
      = List.map aged (List.filter (fun e => negb (expired e)) l)).
Proof.
  intros l.
  split; [apply tick_pass_prefix|].
  split; [apply tick_status_effects_result|].
  intros Hnd. rewrite tick_status_effects_result. simpl.
  by apply without_expired_names.
Qed.

End Tick.

Lemma tick_visits_each_effect_once_witness :
  NoDup (names (Stats.status_effects burning_stats))
  /\ Stats.tick_status_effects burning_stats
     = (["[DOT] Poison deals 5 damage!"; "[*] Poison wore off!";
         "[DOT] Burn deals 1 damage!"],
        Stats.mk 34 40 10 10 10 8 1 0
          [StatusEffect.mk "Battle Cry" "stat_mod" "attack" 5 2;
           StatusEffect.mk "Burn" "damage_over_time" "" (-2) 1])
  /\ Stats.status_effects (Stats.tick_status_effects burning_stats).2
     = [StatusEffect.mk "Battle Cry" "stat_mod" "attack" 5 2;
        StatusEffect.mk "Burn" "damage_over_time" "" (-2) 1].
Proof.
  assert (NoDup (names (Stats.status_effects burning_stats))) as Hnd.
  { unfold names; simpl. apply (bool_decide_unpack _). vm_compute. exact I. }
  destruct (tick_visits_each_effect_once burning_stats) as (_ & Heq & Hleft).
  split; [exact Hnd|]. split.
  - rewrite Heq. vm_compute. reflexivity.
  - rewrite (Hleft Hnd). reflexivity.
Defined.

(** ** The combat loop *)

Section Combat.

Import CombatSystem.

Implicit Types (self : CombatSystem.t) (w : Env).

(** A dead combatant stays dead through the tick: effects only damage. *)
Lemma dot_hits_keep_dead (l : list StatusEffect.t) (hp : Z) :
  hp <= 0 -> List.fold_left dot_hit l hp <= 0.
Proof.
  revert hp. induction l as [|e l IH]; intros hp Hhp; simpl; [done|].
  apply IH. unfold dot_hit. destruct (is_dot e); lia.
Qed.

Lemma tick_keeps_dead (s : Stats.t) :
  Stats.hp s <= 0 ->
  Stats.is_alive (Stats.tick_status_effects s).2 = false.
Proof.
  intros Hhp.
  rewrite tick_status_effects_result.
  unfold Stats.is_alive. simpl. apply Z.ltb_ge.
  by apply dot_hits_keep_dead.
Qed.

(** [turn_body] is [pass_before_tick] followed, where the code reaches
    [_end_of_turn], by the tick of both sides. *)
Lemma turn_body_tick self w :
  turn_body self w
  = match pass_before_tick self w with
    | Some (Fall self1, w1) => Some (Continue (_end_of_turn self1), w1)
    | r => r
    end.
Proof.
  unfold turn_body, pass_before_tick, bind, ret.
  destruct (Stats.is_stunned _).
  - destruct (input w) as [[? w1]|]; [|done].
    by destruct (_enemy_turn _ w1) as [[? ?]|].
  - destruct (input w) as [[line w1]|]; [|done].
    by destruct (player_turn _ _ w1) as [[[?|?|? ?] ?]|].
Qed.

Lemma end_of_turn_fields self :
  let p := Stats.tick_status_effects (Player.stats (player self)) in
  let e := Stats.tick_status_effects (Enemy.stats (enemy self)) in
  Player.stats (player (_end_of_turn self)) = p.2
  /\ Enemy.stats (enemy (_end_of_turn self)) = e.2
  /\ messages (_end_of_turn self) = messages self ++ p.1 ++ e.1.
Proof.
  unfold _end_of_turn.
  destruct (Stats.tick_status_effects (Player.stats (player self)))
    as [pm ps] eqn:Hp.
  cbn [player enemy with_player extend].
  destruct (Stats.tick_status_effects (Enemy.stats (enemy self)))
    as [em es] eqn:He.
  destruct self as [[[] ? ? ? ?] [[] ? ?] ? ?]. simpl.
  by rewrite <- app_assoc.
Qed.

(** A pass goes on to the end-of-turn processing either from the enemy's
    turn or, on a key that is no choice of the menu, with nothing done. *)
Lemma fall_after_enemy_turn self w self1 w1 :
  pass_before_tick self w = Some (Fall self1, w1) ->
  (exists self0 w0, _enemy_turn self0 w0 = Some (self1, w1))
  \/ self1 = with_turn (turn self + 1) self.
Proof.
  unfold pass_before_tick, player_turn, bind, ret. intros H.
  repeat match type of H with
         | context [match ?x with _ => _ end] => destruct x eqn:?
         end;
    simplify_eq; eauto.
Qed.

Lemma run_combat_over fuel self w :
  active self = false ->
  run_combat fuel self w = (r <- after_loop self ;; ret (Some r)) w.
Proof. intros H. destruct fuel; simpl; by rewrite H. Qed.

(** C2, as amended.  In a pass of the loop in which the player, alive at
    its start, is at 0 HP or below when the enemy has acted, the
    end-of-turn tick is still run, on the player and then on the enemy, and
    its messages are logged; the player is not alive after it, so the test
    of the loop fails next and only then [run_combat] logs the defeat, waits
    for Enter and returns [False]. *)
Theorem defeat_is_found_after_the_tick self w self1 w1 line rest :
  active self = true ->
  pass_before_tick self w = Some (Fall self1, w1) ->
  Stats.hp (Player.stats (player self1)) <= 0 ->
  stdin w1 = line :: rest ->
  let p := Stats.tick_status_effects (Player.stats (player self1)) in
  let e := Stats.tick_status_effects (Enemy.stats (enemy self1)) in
  let self2 := _end_of_turn self1 in
  (exists self0 w0, _enemy_turn self0 w0 = Some (self1, w1))
  /\ turn_body self w = Some (Continue self2, w1)
  /\ Player.stats (player self2) = p.2
  /\ Enemy.stats (enemy self2) = e.2
  /\ messages self2 = messages self1 ++ p.1 ++ e.1
  /\ active self2 = false
  /\ forall fuel,
       run_combat (S fuel) self w
       = Some (Some (false,
                     append (Player.name (player self2) +:+
                             " has been defeated...") self2),
               mk_env rest (rng w1) (drawn w1)).
Proof.
  intros Hactive Hpass Hhp Hin p e self2.
  destruct (end_of_turn_fields self1) as (Hp & He & Hm).
  fold p e self2 in Hp, He, Hm.
  assert (Stats.is_alive (Player.stats (player self2)) = false) as Hdead
    by (rewrite Hp; by apply tick_keeps_dead).
  assert (turn_body self w = Some (Continue self2, w1)) as Hturn
    by (by rewrite turn_body_tick, Hpass).
  assert (active self2 = false) as Hover
    by (unfold active; by rewrite Hdead).
  split.
  { destruct (fall_after_enemy_turn _ _ _ _ Hpass) as [?| ->]; [done|].
    exfalso. apply andb_prop in Hactive as [Halive _].
    apply Z.ltb_lt in Halive. simpl in Hhp. lia. }
  repeat split; try done.
  intros fuel. clearbody self2. cbn [run_combat].
  rewrite Hactive. unfold bind at 1. rewrite Hturn.
  rewrite run_combat_over by done.
  unfold after_loop. rewrite Hdead. cbn [negb].
  unfold bind, ret, input. cbn beta iota. by rewrite Hin.
Qed.

Lemma use_skill_heal (caster : Player.t) (skill : Skill.t)
    (target : Entity.t) w :
  Skill.skill_type skill = "heal" ->
  Skill.mp_cost skill <= Stats.mp (Player.stats caster) ->
  Player.use_skill caster skill target w
  = Some (Some 0,
          Player.name caster +:+ " uses " +:+ Skill.name skill +:+
          "! Restored " +:+ str (Player.effect_amount caster skill) +:+
          " HP!",
          Player.with_stats
            (Stats.with_mp
               (Stats.mp (Player.stats caster) - Skill.mp_cost skill)
               (Player.stats caster)) caster,
          Entity.with_stats
            (Stats.with_hp
               (Z.min (Stats.max_hp (Entity.stats target))
                  (Stats.hp (Entity.stats target)
                   + Player.effect_amount caster skill))
               (Entity.stats target)) target,
          w).
Proof.
  intros Htype Hmp. unfold Player.use_skill, Stats.use_mp.
  apply Z.leb_le in Hmp. rewrite Hmp, Htype. reflexivity.
Qed.

(** C3.  A skill chosen in the skill menu is used with the enemy as its
    target, whether the use succeeds or fails.  So a heal skill that the
    player can pay for sets the enemy's [hp] to
    [min max_hp (hp + effect_amount)]; of the player it only lowers [mp]:
    the player's [hp] is as it was. *)
Theorem skill_menu_targets_the_enemy self w line rest (skill : Skill.t) :
  stdin w = line :: rest ->
  strip line <> "0" ->
  isdigit (strip line) = true ->
  1 <= int_of_str (strip line) ->
  Player.skills (player self) !! Z.to_nat (int_of_str (strip line) - 1)
  = Some skill ->
  let w1 := mk_env rest (rng w) (drawn w) in
  let caster := player self in
  let target := Enemy.entity (enemy self) in
  (forall damage msg p e w2,
     Player.use_skill caster skill target w1
     = Some (Some damage, msg, p, e, w2) ->
     _handle_skills self w
     = Some (true,
             append msg
               (with_enemy (Enemy.with_entity e (enemy self))
                  (with_player p self)),
             w2))
  /\ (forall msg p e w2,
        Player.use_skill caster skill target w1 = Some (None, msg, p, e, w2) ->
        _handle_skills self w
        = (_ <- input ;;
           ret (false,
                append msg
                  (with_enemy (Enemy.with_entity e (enemy self))
                     (with_player p self)))) w2)
  /\ (Skill.skill_type skill = "heal" ->
      Skill.mp_cost skill <= Stats.mp (Player.stats caster) ->
      exists self',
        _handle_skills self w = Some (true, self', w1)
        /\ Player.stats (player self')
           = Stats.with_mp
               (Stats.mp (Player.stats caster) - Skill.mp_cost skill)
               (Player.stats caster)
        /\ Stats.hp (Player.stats (player self'))
           = Stats.hp (Player.stats caster)
        /\ Enemy.stats (enemy self')
           = Stats.with_hp
               (Z.min (Stats.max_hp (Enemy.stats (enemy self)))
                  (Stats.hp (Enemy.stats (enemy self))
                   + Player.effect_amount caster skill))
               (Enemy.stats (enemy self))).
Proof.
  intros Hin Hnot0 Hdigit Hpos Hskill w1 caster target.
  assert (_handle_skills self w
          = match Player.use_skill caster skill target w1 with
            | Some (Some damage, msg, p, e, w2) =>
                Some (true,
                      append msg
                        (with_enemy (Enemy.with_entity e (enemy self))
                           (with_player p self)),
                      w2)
            | Some (None, msg, p, e, w2) =>
                (_ <- input ;;
                 ret (false,
                      append msg
                        (with_enemy (Enemy.with_entity e (enemy self))
                           (with_player p self)))) w2
            | None => None
            end) as Hcall.
  { unfold _handle_skills, bind at 1, input. rewrite Hin.
    apply String.eqb_neq in Hnot0. rewrite Hnot0, Hdigit.
    pose proof (lookup_lt_Some _ _ _ Hskill) as Hlt.
    replace (0 <=? int_of_str (strip line) - 1) with true
      by (symmetry; apply Z.leb_le; lia).
    replace (int_of_str (strip line) - 1
             <? Z.of_nat (length (Player.skills (player self))))
      with true by (symmetry; apply Z.ltb_lt; lia).
    cbn [andb]. rewrite Hskill. unfold bind at 1.
    fold w1 caster target.
    by destruct (Player.use_skill caster skill target w1)
      as [[[[[[d|] msg] p] e] w2]|]. }
  assert (forall damage msg p e w2,
            Player.use_skill caster skill target w1
            = Some (Some damage, msg, p, e, w2) ->
            _handle_skills self w
            = Some (true,
                    append msg
                      (with_enemy (Enemy.with_entity e (enemy self))
                         (with_player p self)),
                    w2)) as Huse
    by (intros damage msg p e w2 Hrun; by rewrite Hcall, Hrun).
  split; [exact Huse|].
  split; [intros msg p e w2 Hrun; by rewrite Hcall, Hrun|].
  intros Htype Hmp. eexists. split.
  - eapply Huse. by apply use_skill_heal.
  - by destruct self as [[[] ? ? ? ?] [[] ? ?] ? ?].
Qed.

End Combat.

(** C2, the claim as it was stated fails: the goblin's attack takes the
    warrior from 5 HP to 0, and the pass still ticks the goblin's Poison:
    5 damage, one turn less, one more message. *)
Lemma tick_runs_after_the_fatal_blow :
  (let w1 := mk_env [""] midpoint 2 in
   pass_before_tick last_stand last_stand_keys
   = Some (CombatSystem.Fall last_stand_blow, w1)
   /\ Stats.hp (Player.stats (CombatSystem.player last_stand_blow)) = 0
   /\ Enemy.stats (CombatSystem.enemy last_stand_blow)
      = Stats.mk 22 40 10 10 10 8 1 0 [poison 5 3]
   /\ exists self2,
        CombatSystem.turn_body last_stand last_stand_keys
        = Some (CombatSystem.Continue self2, w1)
        /\ Enemy.stats (CombatSystem.enemy self2)
           = Stats.mk 17 40 10 10 10 8 1 0 [poison 5 2]
        /\ CombatSystem.messages self2
           = CombatSystem.messages last_stand_blow
             ++ ["[DOT] Poison deals 5 damage!"])
  /\ ~ (forall (self self1 : CombatSystem.t) (w w1 : Env),
          CombatSystem.active self = true ->
          pass_before_tick self w = Some (CombatSystem.Fall self1, w1) ->
          Stats.hp (Player.stats (CombatSystem.player self1)) <= 0 ->
          forall f w2,
            CombatSystem.turn_body self w = Some (f, w2) ->
            Player.stats (CombatSystem.player (flow_state f))
            = Player.stats (CombatSystem.player self1)
            /\ Enemy.stats (CombatSystem.enemy (flow_state f))
               = Enemy.stats (CombatSystem.enemy self1)).
Proof.
  split.
  - repeat split. eexists. repeat split.
  - intros H.
    destruct (H last_stand last_stand_blow last_stand_keys
                (mk_env [""] midpoint 2) eq_refl eq_refl) with
      (f := CombatSystem.Continue
              (CombatSystem._end_of_turn last_stand_blow))
      (w2 := mk_env [""] midpoint 2) as [_ He];
      [vm_compute; discriminate | reflexivity |].
    vm_compute in He. discriminate He.
Qed.

Lemma defeat_is_found_after_the_tick_witness :
  CombatSystem.active last_stand = true
  /\ Stats.hp (Player.stats (CombatSystem.player last_stand_blow)) <= 0
  /\ CombatSystem.run_combat 1 last_stand last_stand_keys
     = Some (Some (false,
                   CombatSystem.append "Hero has been defeated..."
                     (CombatSystem._end_of_turn last_stand_blow)),
             mk_env [] midpoint 2).
Proof.
  split; [reflexivity|]. split; [vm_compute; discriminate|].
  apply (defeat_is_found_after_the_tick last_stand last_stand_keys
           last_stand_blow (mk_env [""] midpoint 2) "" []);
    [reflexivity | reflexivity | vm_compute; discriminate | reflexivity].
Defined.

Lemma skill_menu_targets_the_enemy_witness :
  exists self',
    CombatSystem._handle_skills wizard_heals (mk_env [" 4 "] midpoint 0)
    = Some (true, self', mk_env [] midpoint 0)
    /\ Player.stats (CombatSystem.player self')
       = Stats.mk 30 80 45 60 12 10 1 0 []
    /\ Enemy.stats (CombatSystem.enemy self')
       = Stats.mk 31 40 10 10 10 8 1 0 [].
Proof.
  destruct (skill_menu_targets_the_enemy wizard_heals
              (mk_env [" 4 "] midpoint 0) " 4 " [] heal_spell)
    as (_ & _ & Hheal); [reflexivity | discriminate | reflexivity
                   | vm_compute; discriminate | reflexivity |].
  destruct Hheal as (self' & Hrun & Hp & _ & He);
    [reflexivity | vm_compute; discriminate |].
  exists self'. split; [exact Hrun|]. split; [exact Hp | exact He].
Defined.

(** ** Skill resolution and the caster's attack *)

(** C1 does not hold of the code: [use_skill] multiplies the base [attack],
    whatever the effects on the caster.  After Battle Cry the warrior's
    effective attack is 23, yet Power Strike (150%) starts from
    [int(18 * 1.5) = 27], not from [floor(23 * 1.5) = 34], and deals 27. *)
Theorem use_skill_ignores_attack_modifiers :
  Player.use_skill (Warrior "Hero") battle_cry (Enemy.entity goblin_scout)
    (mk_env [] midpoint 0)
  = Some (Some 0, "Hero uses Battle Cry! Attack +5 for 3 turns!",
          buffed_warrior, Enemy.entity goblin_scout, mk_env [] midpoint 0)
  /\ Stats.get_effective_attack (Player.stats buffed_warrior) = 23
  /\ Player.effect_amount buffed_warrior power_strike = 27
  /\ Qfloor (inject_Z 23 * Skill.power power_strike) = 34
  /\ Player.use_skill buffed_warrior power_strike (Enemy.entity goblin_scout)
       (mk_env [] midpoint 0)
     = Some (Some 27, "Hero uses Power Strike! Deals 27 damage!",
             Player.with_stats
               (Stats.with_mp 5 (Player.stats buffed_warrior)) buffed_warrior,
             Entity.with_stats
               (Stats.with_hp 13 (Enemy.stats goblin_scout)) (Enemy.entity goblin_scout),
             mk_env [] midpoint 1)
  /\ forall (caster : Player.t) (skill : Skill.t)
            (effects : list StatusEffect.t),
       Player.effect_amount
         (Player.with_stats
            (Stats.with_status_effects effects (Player.stats caster)) caster)
         skill
       = Player.effect_amount caster skill.
Proof. repeat split. Qed.

(** * Further properties *)

(** ** The status effect engine *)

Section Effects.

Implicit Types (e x : StatusEffect.t) (l : list StatusEffect.t)
               (n : string) (s : Stats.t).

Lemma named_app n l1 l2 : named n (l1 ++ l2) = named n l1 ++ named n l2.
Proof. apply List.filter_app. Qed.

Lemma others_app n l1 l2 : others n (l1 ++ l2) = others n l1 ++ others n l2.
Proof. apply List.filter_app. Qed.

(** The loop of [add_status_effect] either finds no entry of the name, or
    refreshes the first one and leaves the rest of the list alone. *)
Lemma merge_cases e l :
  (Stats.merge_status_effect e l = None /\ named (StatusEffect.name e) l = [])
  \/ (exists l1 x l2,
        Stats.merge_status_effect e l = Some (l1 ++ refresh e x :: l2)
        /\ l = l1 ++ x :: l2
        /\ StatusEffect.name x = StatusEffect.name e
        /\ named (StatusEffect.name e) l1 = []).
Proof.
  induction l as [|y l IH]; [by left|]. simpl.
  destruct (String.eqb_spec (StatusEffect.name y) (StatusEffect.name e))
    as [Heq|Hne].
  - right. exists [], y, l. repeat split; try done.
    unfold refresh, is_dot. simpl.
    by destruct (String.eqb (StatusEffect.effect_type e) "damage_over_time").
  - destruct IH as [[-> Hnil]|(l1 & x & l2 & -> & -> & Hx & Hnil)].
    + by left.
    + right. exists (y :: l1), x, l2. repeat split; try done. simpl.
      by destruct (String.eqb_spec (StatusEffect.name y)
                     (StatusEffect.name e)).
Qed.

Lemma others_refresh n e x l1 l2 :
  StatusEffect.name x = n ->
  others n (l1 ++ refresh e x :: l2) = others n (l1 ++ x :: l2).
Proof.
  intros <-. rewrite !others_app. simpl. by rewrite String.eqb_refl.
Qed.

Lemma named_others_same n l : named n (others n l) = [].
Proof.
  induction l as [|x l IH]; [done|]. simpl.
  destruct (String.eqb (StatusEffect.name x) n) eqn:E; simpl; [done|].
  by rewrite E.
Qed.

Lemma named_others_other n m l : m <> n -> named m (others n l) = named m l.
Proof.
  intros Hne. induction l as [|x l IH]; [done|]. simpl.
  destruct (String.eqb_spec (StatusEffect.name x) n) as [Hx|Hx]; simpl.
  - destruct (String.eqb_spec (StatusEffect.name x) m); [congruence|done].
  - by rewrite IH.
Qed.

Lemma others_absent n l : named n l = [] -> others n l = l.
Proof.
  induction l as [|x l IH]; [done|]. simpl.
  destruct (String.eqb (StatusEffect.name x) n); simpl; [done|].
  intros H. by rewrite IH.
Qed.

(** X1.  [remove_status_effect] leaves no effect of the given name, keeps
    the effects of every other name, does nothing when the name is absent
    and nothing more when it is called again. *)
Theorem remove_status_effect_only_that_name s n :
  let s' := Stats.remove_status_effect s n in
  named n (Stats.status_effects s') = []
  /\ (forall m, m <> n ->
        named m (Stats.status_effects s') = named m (Stats.status_effects s))
  /\ (named n (Stats.status_effects s) = [] -> s' = s)
  /\ Stats.remove_status_effect s' n = s'.
Proof.
  destruct s as [hp mhp mp mmp atk spd lvl exp l].
  unfold Stats.remove_status_effect; simpl. fold (others n l).
  fold (others n (others n l)).
  split; [apply named_others_same|].
  split; [intros m Hm; by apply named_others_other|].
  split.
  - intros H. by rewrite others_absent.
  - by rewrite (others_absent n (others n l)) by apply named_others_same.
Qed.

Lemma add_status_effect_frame s e :
  Stats.add_status_effect s e
  = Stats.with_status_effects
      (Stats.status_effects (Stats.add_status_effect s e)) s.
Proof.
  unfold Stats.add_status_effect.
  by destruct (Stats.merge_status_effect e (Stats.status_effects s)), s.
Qed.

Lemma others_after_add s e :
  others (StatusEffect.name e)
    (Stats.status_effects (Stats.add_status_effect s e))
  = others (StatusEffect.name e) (Stats.status_effects s).
Proof.
  unfold Stats.add_status_effect.
  destruct (merge_cases e (Stats.status_effects s))
    as [[-> _]|(l1 & x & l2 & -> & Hl & Hx & _)].
  - destruct s; simpl. rewrite others_app. simpl.
    rewrite String.eqb_refl. simpl. apply app_nil_r.
  - rewrite Hl. destruct s; simpl. by apply others_refresh.
Qed.

(** X2.  Removing by name what [add_status_effect] has just applied gives
    the container without the effects of that name; when the name was not
    there before, it gives the container back. *)
Theorem add_then_remove_status_effect s e :
  let n := StatusEffect.name e in
  Stats.remove_status_effect (Stats.add_status_effect s e) n
  = Stats.remove_status_effect s n
  /\ (named n (Stats.status_effects s) = [] ->
      Stats.remove_status_effect (Stats.add_status_effect s e) n = s).
Proof.
  intros n. subst n.
  assert (Stats.remove_status_effect (Stats.add_status_effect s e)
            (StatusEffect.name e)
          = Stats.remove_status_effect s (StatusEffect.name e)) as Heq.
  { unfold Stats.remove_status_effect.
    fold (others (StatusEffect.name e)
            (Stats.status_effects (Stats.add_status_effect s e))).
    rewrite others_after_add, add_status_effect_frame. by destruct s. }
  split; [exact Heq|].
  intros Hnil. rewrite Heq. unfold Stats.remove_status_effect.
  fold (others (StatusEffect.name e) (Stats.status_effects s)).
  rewrite others_absent by done. by destruct s.
Qed.

(** X3.  [add_status_effect] touches nothing but the list of effects; on a
    name that is there it keeps the names and their order, on a new name it
    appends the effect as it is; a list with at most one entry per name
    stays so. *)
Theorem add_status_effect_keeps_names s e :
  let n := StatusEffect.name e in
  let l := Stats.status_effects s in
  let s' := Stats.add_status_effect s e in
  s' = Stats.with_status_effects (Stats.status_effects s') s
  /\ (named n l <> [] -> names (Stats.status_effects s') = names l)
  /\ (named n l = [] -> Stats.status_effects s' = l ++ [e])
  /\ (NoDup (names l) -> NoDup (names (Stats.status_effects s'))).
Proof.
  intros n l s'. subst n l s'.
  split; [|split; [|split]].
  - apply add_status_effect_frame.
  - unfold Stats.add_status_effect.
    destruct (merge_cases e (Stats.status_effects s))
      as [[_ Hnil]|(l1 & x & l2 & -> & Hl & _ & _)]; [done|].
    intros _. rewrite Hl. destruct s; simpl. unfold names.
    by rewrite !List.map_app.
  - intros Hnil. unfold Stats.add_status_effect.
    rewrite (merge_none _ _ Hnil). by destruct s.
  - intros Hnd. by destruct (add_status_effect_step s e Hnd) as [? _].
Qed.

End Effects.

Section Modifiers.

Implicit Types (e x : StatusEffect.t) (l : list StatusEffect.t)
               (s : Stats.t) (stat : string).

Lemma get_stat_modifier_sum s stat :
  Stats.get_stat_modifier s stat
  = sumZ (List.map (modifier_of stat) (Stats.status_effects s)).
Proof.
  unfold Stats.get_stat_modifier.
  assert (forall l a,
            List.fold_left
              (fun total effect =>
                 if String.eqb (StatusEffect.effect_type effect) "stat_mod"
                    && String.eqb (StatusEffect.stat_affected effect) stat
                 then total + StatusEffect.power effect
                 else total) l a
            = a + sumZ (List.map (modifier_of stat) l)) as Hfold.
  { induction l as [|e l IH]; intros a; simpl; [lia|].
    rewrite IH. unfold modifier_of.
    destruct (String.eqb (StatusEffect.effect_type e) "stat_mod"
              && String.eqb (StatusEffect.stat_affected e) stat); lia. }
  rewrite Hfold. lia.
Qed.

Lemma sumZ_cons (a : Z) (l : list Z) : sumZ (a :: l) = a + sumZ l.
Proof. reflexivity. Qed.

Lemma sumZ_app (l1 l2 : list Z) : sumZ (l1 ++ l2) = sumZ l1 + sumZ l2.
Proof. induction l1 as [|a l1 IH]; simpl; lia. Qed.

Lemma get_stat_modifier_add s e stat :
  (named (StatusEffect.name e) (Stats.status_effects s) = [] ->
   Stats.get_stat_modifier (Stats.add_status_effect s e) stat
   = Stats.get_stat_modifier s stat + modifier_of stat e)
  /\ (named (StatusEffect.name e) (Stats.status_effects s) <> [] ->
      is_dot e = false ->
      Stats.get_stat_modifier (Stats.add_status_effect s e) stat
      = Stats.get_stat_modifier s stat).
Proof.
  rewrite !get_stat_modifier_sum.
  unfold Stats.add_status_effect.
  destruct (merge_cases e (Stats.status_effects s))
    as [[-> Hnil]|(l1 & x & l2 & -> & Hl & Hx & Hl1)].
  - split; [|done]. intros _. destruct s; simpl.
    rewrite List.map_app, sumZ_app. simpl. lia.
  - split.
    + intros Hnil. rewrite Hl, named_app in Hnil. simpl in Hnil.
      rewrite Hx, String.eqb_refl in Hnil. by destruct (named _ l1).
    + intros _ Hdot. rewrite Hl. destruct s; simpl.
      rewrite !List.map_app, !sumZ_app. simpl.
      unfold modifier_of, refresh. simpl. by rewrite Hdot.
Qed.

(** X4.  What [add_status_effect] does to a stat modifier: an effect of a
    new name adds its power when it is a [stat_mod] on that stat and
    nothing otherwise; an effect of a name that is there, unless it is a
    DOT effect, leaves the modifier as it was, so a buff applied again does
    not add up. *)
Theorem stat_modifier_after_add s e stat :
  let n := StatusEffect.name e in
  let s' := Stats.add_status_effect s e in
  (named n (Stats.status_effects s) = [] ->
   Stats.get_stat_modifier s' stat
   = Stats.get_stat_modifier s stat + modifier_of stat e)
  /\ (named n (Stats.status_effects s) <> [] -> is_dot e = false ->
      Stats.get_stat_modifier s' stat = Stats.get_stat_modifier s stat).
Proof. apply get_stat_modifier_add. Qed.

End Modifiers.

(** ** Ticks *)

Section Ticks.

Implicit Types (e : StatusEffect.t) (l : list StatusEffect.t)
               (s : Stats.t) (k : nat).

Lemma names_filter_NoDup (P : StatusEffect.t -> bool) l :
  NoDup (names l) -> NoDup (names (List.filter P l)).
Proof.
  induction l as [|e l IH]; [done|]. simpl.
  intros [He Hnd]%NoDup_cons. destruct (P e); [|auto].
  simpl. apply NoDup_cons. split; [|auto].
  intros Hin. apply He. unfold names in *.
  apply list_elem_of_In, List.in_map_iff in Hin as (x & Hx & Hin).
  apply List.filter_In in Hin as [Hin _].
  rewrite <- Hx. by apply list_elem_of_In, List.in_map.
Qed.

Lemma names_aged l : names (List.map aged l) = names l.
Proof. unfold names. rewrite List.map_map. by apply List.map_ext. Qed.

Lemma dot_hits_bounds l (hp : Z) :
  0 <= hp -> 0 <= List.fold_left dot_hit l hp <= hp.
Proof.
  revert hp. induction l as [|e l IH]; intros hp Hhp; simpl; [lia|].
  assert (0 <= dot_hit hp e <= hp) as Hstep
    by (unfold dot_hit; destruct (is_dot e); lia).
  specialize (IH (dot_hit hp e)). lia.
Qed.

(** X5.  One tick touches nothing but [hp] and the effects.  From a
    non-negative [hp] it never raises [hp] and never takes it below 0.  No
    effect is added, every effect that is left has at least one turn to go,
    and a list with at most one entry per name stays so.  With no effect
    the tick does nothing and says nothing. *)
Theorem tick_only_hurts_and_ages s :
  let l := Stats.status_effects s in
  let r := (Stats.tick_status_effects s).2 in
  r = Stats.with_status_effects (Stats.status_effects r)
        (Stats.with_hp (Stats.hp r) s)
  /\ (0 <= Stats.hp s -> 0 <= Stats.hp r <= Stats.hp s)
  /\ Forall (fun e => 1 <= StatusEffect.duration e) (Stats.status_effects r)
  /\ (length (Stats.status_effects r) <= length l)%nat
  /\ (NoDup (names l) -> NoDup (names (Stats.status_effects r)))
  /\ (l = [] -> Stats.tick_status_effects s = ([], s)).
Proof.
  intros l r. subst r. rewrite tick_status_effects_result. fold l.
  cbn [snd Stats.status_effects Stats.with_status_effects Stats.hp
       Stats.with_hp].
  split; [by destruct s|].
  split; [apply dot_hits_bounds|].
  split; [|split; [|split]].
  - apply Forall_forall. intros x Hx.
    apply list_elem_of_In, List.filter_In in Hx as [Hx Hkeep].
    apply List.in_map_iff in Hx as (e & <- & He).
    change (StatusEffect.name (aged e)) with (StatusEffect.name e) in Hkeep.
    destruct (expired e) eqn:Hexp.
    + exfalso. apply negb_true_iff, not_true_iff_false in Hkeep.
      apply Hkeep, List.existsb_exists. exists (StatusEffect.name e).
      split; [|apply String.eqb_refl].
      unfold expired_names. apply List.in_map, List.filter_In. done.
    + unfold expired in Hexp. apply negb_false_iff, Z.ltb_lt in Hexp.
      simpl. lia.
  - unfold without.
    etrans; [apply List.filter_length_le|]. by rewrite length_map.
  - intros Hnd. unfold without. apply names_filter_NoDup.
    by rewrite names_aged.
  - intros Hl. subst l. destruct s as [? ? ? ? ? ? ? ? effects].
    simpl in *. by subst effects.
Qed.

Lemma tick_effects_NoDup s :
  NoDup (names (Stats.status_effects s)) ->
  Stats.status_effects (Stats.tick_status_effects s).2
  = List.map aged
      (List.filter (fun e => negb (expired e)) (Stats.status_effects s)).
Proof.
  intros Hnd. rewrite tick_status_effects_result. simpl.
  by apply without_expired_names.
Qed.

Lemma filter_map_aged (P : StatusEffect.t -> bool) l :
  List.filter P (List.map aged l)
  = List.map aged (List.filter (fun e => P (aged e)) l).
Proof.
  induction l as [|e l IH]; [done|]. simpl.
  destruct (P (aged e)); simpl; by rewrite IH.
Qed.

Lemma filter_filter (P Q : StatusEffect.t -> bool) l :
  List.filter P (List.filter Q l) = List.filter (fun e => P e && Q e) l.
Proof.
  induction l as [|e l IH]; [done|]. simpl.
  destruct (Q e); simpl; rewrite ?andb_true_r, ?andb_false_r;
    [destruct (P e)|]; by rewrite IH.
Qed.

Lemma aged_by_0 e : aged_by 0 e = e.
Proof.
  destruct e. unfold aged_by, StatusEffect.with_duration.
  cbn [StatusEffect.name StatusEffect.effect_type StatusEffect.stat_affected
       StatusEffect.power StatusEffect.duration].
  f_equal. lia.
Qed.

Lemma aged_by_S k e : aged_by k (aged e) = aged_by (S k) e.
Proof.
  unfold aged_by, aged, StatusEffect.with_duration.
  cbn [StatusEffect.name StatusEffect.effect_type StatusEffect.stat_affected
       StatusEffect.power StatusEffect.duration].
  f_equal. lia.
Qed.

Lemma lasts_S k e : lasts k (aged e) && negb (expired e) = lasts (S k) e.
Proof.
  unfold lasts, expired, aged. rewrite negb_involutive.
  cbn [StatusEffect.duration StatusEffect.with_duration Nat.eqb orb].
  destruct (Z.ltb_spec (Z.of_nat k) (StatusEffect.duration e - 1)),
    (Z.ltb_spec 0 (StatusEffect.duration e - 1)),
    (Z.ltb_spec (Z.of_nat (S k)) (StatusEffect.duration e)),
    (Nat.eqb_spec k 0);
    simpl; try reflexivity; lia.
Qed.

Lemma tick_NoDup s :
  NoDup (names (Stats.status_effects s)) ->
  NoDup (names (Stats.status_effects (Stats.tick_status_effects s).2)).
Proof.
  intros Hnd. rewrite tick_effects_NoDup by done.
  rewrite names_aged. by apply names_filter_NoDup.
Qed.

(** The effects left by [k] ticks, with at most one entry per name: those
    that last longer than [k] turns, [k] turns older. *)
Lemma ticks_effects k s :
  NoDup (names (Stats.status_effects s)) ->
  Stats.status_effects (ticks k s)
  = List.map (aged_by k) (List.filter (lasts k) (Stats.status_effects s)).
Proof.
  revert s. induction k as [|k IH]; intros s Hnd.
  - simpl. clear Hnd.
    induction (Stats.status_effects s) as [|e l IHl]; [done|].
    simpl. by rewrite aged_by_0, <- IHl.
  - cbn [ticks]. rewrite IH by by apply tick_NoDup.
    rewrite tick_effects_NoDup by done.
    rewrite filter_map_aged, filter_filter, List.map_map.
    erewrite List.filter_ext by (intros e; apply lasts_S).
    apply List.map_ext. intros e. apply aged_by_S.
Qed.

Lemma existsb_map_filter (f P : StatusEffect.t -> bool)
    (g : StatusEffect.t -> StatusEffect.t) l :
  List.existsb f (List.map g (List.filter P l))
  = List.existsb (fun e => f (g e) && P e) l.
Proof.
  induction l as [|e l IH]; [done|]. simpl.
  destruct (P e); simpl; rewrite IH; [by rewrite andb_true_r|].
  by rewrite andb_false_r.
Qed.

(** X6.  With at most one entry per name, what [k] ticks leave of the
    effects are those that last longer than [k] turns, [k] turns older.  So
    the container is stunned after [k] ticks exactly when one of its stun
    effects lasts longer than [k] turns, and no effect is left once [k] is
    at least 1 and at least every duration. *)
Theorem effects_last_their_duration k s :
  let l := Stats.status_effects s in
  NoDup (names l) ->
  Stats.status_effects (ticks k s)
  = List.map (aged_by k) (List.filter (lasts k) l)
  /\ Stats.is_stunned (ticks k s)
     = List.existsb (fun e => is_stun e && lasts k e) l
  /\ ((1 <= k)%nat ->
      Forall (fun e => StatusEffect.duration e <= Z.of_nat k) l ->
      Stats.status_effects (ticks k s) = []).
Proof.
  intros l Hnd. subst l.
  pose proof (ticks_effects k s Hnd) as Heq.
  split; [exact Heq|]. split.
  - unfold Stats.is_stunned. rewrite Heq.
    apply (existsb_map_filter
             (fun e => String.eqb (StatusEffect.effect_type e) "stun")).
  - intros Hk Hall. rewrite Heq. clear Heq Hnd.
    induction Hall as [|e l He Hall IH]; [done|]. simpl.
    unfold lasts at 1.
    destruct (Nat.eqb_spec k 0); [lia|].
    destruct (Z.ltb_spec (Z.of_nat k) (StatusEffect.duration e)); [lia|].
    exact IH.
Qed.

Lemma dot_once_nonneg e : 0 <= dot_once e.
Proof. unfold dot_once. destruct (is_dot e); lia. Qed.

Lemma dot_total_nonneg k e : 0 <= dot_total k e.
Proof. unfold dot_total. destruct (is_dot e); lia. Qed.

Lemma sumZ_nonneg {A} (f : A -> Z) (l : list A) :
  (forall a, 0 <= f a) -> 0 <= sumZ (List.map f l).
Proof.
  intros Hf. induction l as [|a l IH]; simpl; [lia|].
  specialize (Hf a). lia.
Qed.

Lemma dot_hits_sum l (hp : Z) :
  0 <= hp ->
  List.fold_left dot_hit l hp = Z.max 0 (hp - sumZ (List.map dot_once l)).
Proof.
  revert hp. induction l as [|e l IH]; intros hp Hhp; [simpl; lia|].
  pose proof (sumZ_nonneg dot_once l dot_once_nonneg) as Hsum.
  pose proof (dot_once_nonneg e) as Hone.
  assert (dot_hit hp e = Z.max 0 (hp - dot_once e)) as Hhit
    by (unfold dot_hit, dot_once; destruct (is_dot e); lia).
  cbn [List.fold_left List.map]. rewrite sumZ_cons, IH, Hhit by lia.
  lia.
Qed.

Lemma dot_total_S k e :
  dot_total (S k) e
  = dot_once e + (if negb (expired e) then dot_total k (aged e) else 0).
Proof.
  unfold dot_total, dot_once, expired, aged, is_dot. simpl.
  rewrite negb_involutive.
  destruct (String.eqb (StatusEffect.effect_type e) "damage_over_time");
    [|by destruct (0 <? _)].
  destruct (Z.ltb_spec 0 (StatusEffect.duration e - 1)).
  - replace (Z.min (Z.of_nat (S k)) (Z.max 1 (StatusEffect.duration e)))
      with (1 + Z.min (Z.of_nat k) (Z.max 1 (StatusEffect.duration e - 1)))
      by lia.
    ring.
  - replace (Z.min (Z.of_nat (S k)) (Z.max 1 (StatusEffect.duration e)))
      with 1 by lia.
    ring.
Qed.

Lemma sumZ_dot_total_S k l :
  sumZ (List.map (dot_total (S k)) l)
  = sumZ (List.map dot_once l)
    + sumZ (List.map (dot_total k)
              (List.map aged (List.filter (fun e => negb (expired e)) l))).
Proof.
  induction l as [|e l IH]; [done|]. simpl.
  rewrite IH, dot_total_S. destruct (negb (expired e)); simpl; lia.
Qed.

(** X7.  With at most one entry per name and a non-negative [hp], [k]
    ticks take from [hp] what every DOT effect deals in that time, down to 0
    at most: its power, or 1 if that is less, at each of the first [k]
    ticks of its duration, and at the first tick even with no duration. *)
Theorem ticks_deal_the_dot_damage k s :
  NoDup (names (Stats.status_effects s)) ->
  0 <= Stats.hp s ->
  Stats.hp (ticks k s)
  = Z.max 0
      (Stats.hp s - sumZ (List.map (dot_total k) (Stats.status_effects s))).
Proof.
  revert s. induction k as [|k IH]; intros s Hnd Hhp.
  - simpl. assert (sumZ (List.map (dot_total 0) (Stats.status_effects s)) = 0)
      as ->; [|lia].
    clear Hnd.
    induction (Stats.status_effects s) as [|e l IHl]; [done|].
    cbn [List.map]. rewrite sumZ_cons, IHl.
    unfold dot_total. destruct (is_dot e); lia.
  - cbn [ticks].
    assert (Stats.hp (Stats.tick_status_effects s).2
            = Z.max 0 (Stats.hp s
                       - sumZ (List.map dot_once (Stats.status_effects s))))
      as Hhp1.
    { rewrite tick_status_effects_result. simpl. by apply dot_hits_sum. }
    rewrite IH; [|by apply tick_NoDup|lia].
    rewrite Hhp1, tick_effects_NoDup, sumZ_dot_total_S by done.
    pose proof (sumZ_nonneg dot_once (Stats.status_effects s)
                  dot_once_nonneg).
    pose proof (sumZ_nonneg (dot_total k)
                  (List.map aged
                     (List.filter (fun e => negb (expired e))
                        (Stats.status_effects s)))
                  (dot_total_nonneg k)).
    lia.
Qed.

End Ticks.

(** ** Mana *)

(** X8.  [restore_mp] never leaves [mp] above [max_mp], and it gives back
    exactly what [use_mp] has taken from a pool that was not above
    [max_mp]. *)
Theorem restore_mp_gives_back_use_mp (s : Stats.t) (amount : Z) :
  Stats.mp (Stats.restore_mp s amount) <= Stats.max_mp s
  /\ (Stats.mp s <= Stats.max_mp s -> amount <= Stats.mp s ->
      Stats.use_mp s amount
      = (true, Stats.with_mp (Stats.mp s - amount) s)
      /\ Stats.restore_mp (Stats.use_mp s amount).2 amount = s).
Proof.
  split; [destruct s; simpl; lia|].
  intros Hcap Hmp. unfold Stats.use_mp.
  apply Z.leb_le in Hmp as Hmp'. rewrite Hmp'. split; [done|].
  destruct s; simpl in *. unfold Stats.restore_mp, Stats.with_mp; simpl.
  f_equal. lia.
Qed.

(** ** Attacks *)

Section Attacks.

Implicit Types (w : Env) (x r : Q) (a : Z).

Lemma py_int_floor x : (0 <= x)%Q -> py_int x = Qfloor x.
Proof.
  intros Hx. unfold py_int, Qfloor. destruct x as [n d].
  unfold Qle in Hx. simpl in *. apply Z.quot_div_nonneg; lia.
Qed.

(** [int(a * r)] for a factor [r] between two bounds. *)
Lemma py_int_scaled a (lo hi r : Q) :
  0 <= a -> (0 <= lo)%Q -> (lo <= r)%Q -> (r <= hi)%Q ->
  Qfloor (inject_Z a * lo) <= py_int (inject_Z a * r)
  <= Qfloor (inject_Z a * hi).
Proof.
  intros Ha Hlo Hr1 Hr2.
  assert (0 <= inject_Z a)%Q as Ha' by (unfold Qle; simpl; lia).
  assert (inject_Z a * lo <= inject_Z a * r)%Q as H1
    by (apply Qmult_le_compat_nonneg_l || nra).
  assert (inject_Z a * r <= inject_Z a * hi)%Q as H2 by nra.
  rewrite py_int_floor by nra.
  split; by apply Qfloor_resp_le.
Qed.

Lemma uniform_draw (lo hi : Q) w :
  uniform lo hi w = Some ((lo + (hi - lo) * rng w (drawn w))%Q, after_draw w).
Proof. reflexivity. Qed.

(** X9.  [basic_attack] cannot fail and reads one random number.  With
    that number between 0 and 1, the damage it hands to [take_damage] is
    between 0.8 and 1.2 times the attacker's effective attack (rounded
    down); the target loses that, or 1 if it is less, down to 0 at
    most, and nothing else of the target changes. *)
Theorem basic_attack_damage_range (self target : Entity.t) w :
  (0 <= rng w (drawn w))%Q -> (rng w (drawn w) <= 1)%Q ->
  let attack := Stats.get_effective_attack (Entity.stats self) in
  exists damage,
    Entity.basic_attack self target w
    = Some (Z.max 1 damage,
            Entity.name self +:+ " attacks " +:+ Entity.name target +:+
            " for " +:+ str (Z.max 1 damage) +:+ " damage!",
            Entity.with_stats
              (Stats.with_hp
                 (Z.max 0 (Stats.hp (Entity.stats target) - Z.max 1 damage))
                 (Entity.stats target)) target,
            after_draw w)
    /\ 1 <= attack
    /\ attack * 8 / 10 <= damage <= attack * 12 / 10.
Proof.
  intros Hu0 Hu1 attack.
  assert (1 <= attack) as Hattack
    by (unfold attack, Stats.get_effective_attack; lia).
  pose proof (py_int_scaled attack 0.8 1.2
                (0.8 + (1.2 - 0.8) * rng w (drawn w))) as Hrange.
  set (damage :=
         py_int (inject_Z attack * (0.8 + (1.2 - 0.8) * rng w (drawn w))))
    in *.
  exists damage.
  split; [reflexivity|]. split; [done|].
  unfold Qfloor in Hrange. simpl in Hrange.
  assert (0 <= attack) as H0 by lia.
  specialize (Hrange H0). lapply Hrange; [clear Hrange; intros Hrange|lra].
  lapply Hrange; [clear Hrange; intros Hrange|lra].
  lapply Hrange; [clear Hrange; intros Hrange|lra].
  change (Z.pos (1 * 10)) with 10 in Hrange. clearbody attack damage. lia.
Qed.

(** X10.  The same for a damage skill the caster can pay for, with a
    non-negative [effect_amount]: the damage handed to [take_damage] is
    between 0.9 and 1.1 times it (rounded down), the target
    loses that, or 1 if it is less, and the caster only pays the MP. *)
Theorem damage_skill_range (caster : Player.t) (skill : Skill.t)
    (target : Entity.t) w :
  Skill.skill_type skill = "damage" ->
  Skill.mp_cost skill <= Stats.mp (Player.stats caster) ->
  0 <= Player.effect_amount caster skill ->
  (0 <= rng w (drawn w))%Q -> (rng w (drawn w) <= 1)%Q ->
  let amount := Player.effect_amount caster skill in
  exists damage msg,
    Player.use_skill caster skill target w
    = Some (Some (Z.max 1 damage), msg,
            Player.with_stats
              (Stats.with_mp
                 (Stats.mp (Player.stats caster) - Skill.mp_cost skill)
                 (Player.stats caster)) caster,
            Entity.with_stats
              (Stats.with_hp
                 (Z.max 0 (Stats.hp (Entity.stats target) - Z.max 1 damage))
                 (Entity.stats target)) target,
            after_draw w)
    /\ amount * 9 / 10 <= damage <= amount * 11 / 10.
Proof.
  intros Htype Hmp Hamount Hu0 Hu1 amount.
  pose proof (py_int_scaled amount 0.9 1.1
                (0.9 + (1.1 - 0.9) * rng w (drawn w))) as Hrange.
  set (damage :=
         py_int (inject_Z amount * (0.9 + (1.1 - 0.9) * rng w (drawn w))))
    in *.
  exists damage. eexists. split.
  - unfold Player.use_skill, Stats.use_mp.
    apply Z.leb_le in Hmp. rewrite Hmp, Htype. reflexivity.
  - unfold Qfloor in Hrange. simpl in Hrange.
    specialize (Hrange Hamount).
    lapply Hrange; [clear Hrange; intros Hrange|lra].
    lapply Hrange; [clear Hrange; intros Hrange|lra].
    lapply Hrange; [clear Hrange; intros Hrange|lra].
    change (Z.pos (1 * 10)) with 10 in Hrange. clearbody amount damage. lia.
Qed.

End Attacks.

(** ** Skill resolution *)

Section Skills.

Implicit Types (caster : Player.t) (skill : Skill.t) (target : Entity.t)
               (w : Env).

(** What [use_skill] returns, by the MP check and the skill type. *)
Lemma use_skill_cases caster skill target w :
  let cost := Skill.mp_cost skill in
  let mp := Stats.mp (Player.stats caster) in
  let paid :=
    Player.with_stats (Stats.with_mp (mp - cost) (Player.stats caster))
      caster in
  (mp < cost /\
   Player.use_skill caster skill target w
   = Some (None, "Not enough MP! Need " +:+ str cost +:+ " MP.",
           caster, target, w))
  \/ (cost <= mp /\ (Skill.skill_type skill ∉ known_skill_types) /\
      Player.use_skill caster skill target w
      = Some (None, "Unknown skill type: " +:+ Skill.skill_type skill,
              paid, target, w))
  \/ (cost <= mp /\ Skill.skill_type skill = "damage" /\
      exists damage msg,
        Player.use_skill caster skill target w
        = Some (Some damage, msg, paid,
                Entity.with_stats
                  (Stats.take_damage (Entity.stats target)
                     (py_int (inject_Z (Player.effect_amount caster skill)
                              * (0.9 + (1.1 - 0.9) * rng w (drawn w))))).2
                  target,
                after_draw w))
  \/ (cost <= mp /\ Skill.skill_type skill = "heal" /\
      exists msg,
        Player.use_skill caster skill target w
        = Some (Some 0, msg, paid,
                Entity.with_stats
                  (Stats.heal (Entity.stats target)
                     (Player.effect_amount caster skill)).2 target,
                w))
  \/ (cost <= mp /\ Skill.skill_type skill = "buff" /\
      exists msg,
        Player.use_skill caster skill target w
        = Some (Some 0, msg,
                Player.with_stats
                  (Stats.add_status_effect (Player.stats paid)
                     (StatusEffect.mk (Skill.name skill) "stat_mod" "attack"
                        (Z.max 1 (Player.effect_amount caster skill))
                        (Skill.duration skill))) paid,
                target, w))
  \/ (cost <= mp /\
      (Skill.skill_type skill ∈ ["debuff"; "dot"; "stun"]) /\
      exists msg e,
        Player.use_skill caster skill target w
        = Some (Some 0, msg, paid,
                Entity.with_stats
                  (Stats.add_status_effect (Entity.stats target) e) target,
                w)
        /\ e = (if String.eqb (Skill.skill_type skill) "debuff"
                then StatusEffect.mk (Skill.name skill) "stat_mod" "attack"
                       (- Z.max 1 (Player.effect_amount caster skill))
                       (Skill.duration skill)
                else if String.eqb (Skill.skill_type skill) "dot"
                then StatusEffect.mk (Player.dot_name skill)
                       "damage_over_time" ""
                       (Z.max 1 (Player.effect_amount caster skill))
                       (Skill.duration skill)
                else StatusEffect.mk "Stunned" "stun" "" 0
                       (Skill.duration skill))).
Proof.
  intros cost mp paid. subst cost mp paid.
  unfold Player.use_skill, Stats.use_mp.
  destruct (Z.leb_spec (Skill.mp_cost skill) (Stats.mp (Player.stats caster)))
    as [Hmp|Hmp]; cbn [negb]; [|by left].
  right.
  destruct (String.eqb_spec (Skill.skill_type skill) "damage") as [E1|E1].
  { right; left. repeat split; try done. by eexists _, _. }
  destruct (String.eqb_spec (Skill.skill_type skill) "heal") as [E2|E2].
  { right; right; left. repeat split; try done. by eexists. }
  destruct (String.eqb_spec (Skill.skill_type skill) "buff") as [E3|E3].
  { right; right; right; left. repeat split; try done. by eexists. }
  destruct (String.eqb_spec (Skill.skill_type skill) "debuff") as [E4|E4].
  { do 4 right. rewrite E4. repeat split; try done;
      [apply list_elem_of_here|].
    by eexists _, _. }
  destruct (String.eqb_spec (Skill.skill_type skill) "dot") as [E5|E5].
  { do 4 right. rewrite E5. repeat split; try done;
      [apply list_elem_of_further, list_elem_of_here|].
    by eexists _, _. }
  destruct (String.eqb_spec (Skill.skill_type skill) "stun") as [E6|E6].
  { do 4 right. rewrite E6. repeat split; try done;
      [do 2 apply list_elem_of_further; apply list_elem_of_here|].
    by eexists _, _. }
  left. repeat split; try done.
  unfold known_skill_types. rewrite !not_elem_of_cons.
  repeat split; try done. apply not_elem_of_nil.
Qed.

Lemma status_skill_type_known (t : string) :
  t ∈ ["debuff"; "dot"; "stun"] -> t ∈ known_skill_types.
Proof.
  unfold known_skill_types. rewrite !elem_of_cons. intuition.
Qed.

(** X11.  [use_skill] returns no damage value in two cases only: the
    caster cannot pay, and then nothing at all has changed and no random
    number was drawn; or the skill type is not one of the six, and then the
    MP is spent all the same. *)
Theorem use_skill_fails_exactly_when caster skill target w :
  let cost := Skill.mp_cost skill in
  let mp := Stats.mp (Player.stats caster) in
  exists damage msg caster' target' w',
    Player.use_skill caster skill target w
    = Some (damage, msg, caster', target', w')
    /\ (damage = None
        <-> mp < cost \/ (Skill.skill_type skill ∉ known_skill_types))
    /\ (mp < cost -> caster' = caster /\ target' = target /\ w' = w)
    /\ (cost <= mp -> damage = None ->
        Stats.mp (Player.stats caster') = mp - cost
        /\ target' = target /\ w' = w).
Proof.
  intros cost mp.
  destruct (use_skill_cases caster skill target w)
    as [[Hmp ->]|[(Hmp & Ht & ->)|[(Hmp & Ht & d & msg & ->)
       |[(Hmp & Ht & msg & ->)|[(Hmp & Ht & msg & ->)
       |(Hmp & Ht & msg & e & -> & _)]]]]];
    fold cost mp in Hmp; do 5 eexists; (split; [reflexivity|]).
  - repeat split; auto; lia.
  - repeat split; auto; lia.
  - repeat split; try done; try lia.
    intros [?|Hn]; [lia|]. exfalso. apply Hn. rewrite Ht.
    apply list_elem_of_here.
  - repeat split; try done; try lia.
    intros [?|Hn]; [lia|]. exfalso. apply Hn. rewrite Ht.
    apply list_elem_of_further, list_elem_of_here.
  - repeat split; try done; try lia.
    intros [?|Hn]; [lia|]. exfalso. apply Hn. rewrite Ht.
    do 2 apply list_elem_of_further. apply list_elem_of_here.
  - repeat split; try done; try lia.
    intros [?|Hn]; [lia|]. exfalso. by apply Hn, status_skill_type_known.
Qed.

(** What [use_skill] leaves alone. *)
Lemma use_skill_keeps caster skill target w damage msg caster' target' w' :
  Player.use_skill caster skill target w
  = Some (damage, msg, caster', target', w') ->
  let s := Player.stats caster in
  let s' := Player.stats caster' in
  let t := Entity.stats target in
  let t' := Entity.stats target' in
  stdin w' = stdin w /\ rng w' = rng w
  /\ caster' = Player.with_stats s' caster
  /\ s' = Stats.with_status_effects (Stats.status_effects s')
            (Stats.with_mp (Stats.mp s') s)
  /\ (Stats.mp s' = Stats.mp s
      \/ Stats.mp s' = Stats.mp s - Skill.mp_cost skill)
  /\ (0 <= Stats.mp s -> 0 <= Stats.mp s')
  /\ target' = Entity.with_stats t' target
  /\ t' = Stats.with_status_effects (Stats.status_effects t')
            (Stats.with_hp (Stats.hp t') t).
Proof.
  intros Hrun s s' t t'. subst s s' t t'.
  destruct (use_skill_cases caster skill target w)
    as [[Hmp H]|[(Hmp & Ht & H)|[(Hmp & Ht & d & m & H)
       |[(Hmp & Ht & m & H)|[(Hmp & Ht & m & H)
       |(Hmp & Ht & m & e & H & _)]]]]];
    rewrite H in Hrun; injection Hrun as <- <- <- <- <-;
    destruct caster as [[cn cs ca] ? ? ? ?], target as [tn ts ta];
    destruct cs, ts; cbn in *.
  all: try rewrite (add_status_effect_frame _ _); cbn.
  all: repeat split; try done; try lia; try (right; reflexivity).
  all: try (left; reflexivity).
Qed.

(** X12.  Whatever the skill and the outcome, [use_skill] reads no key; of
    the caster it changes nothing but [mp] and the effects, and [mp] stays
    non-negative when it was and is lowered by the cost or not at all; of
    the target it changes nothing but [hp] and the effects. *)
Theorem use_skill_frame caster skill target w damage msg caster' target' w' :
  Player.use_skill caster skill target w
  = Some (damage, msg, caster', target', w') ->
  let s := Player.stats caster in
  let s' := Player.stats caster' in
  let t := Entity.stats target in
  let t' := Entity.stats target' in
  stdin w' = stdin w /\ rng w' = rng w
  /\ caster' = Player.with_stats s' caster
  /\ s' = Stats.with_status_effects (Stats.status_effects s')
            (Stats.with_mp (Stats.mp s') s)
  /\ (Stats.mp s' = Stats.mp s
      \/ Stats.mp s' = Stats.mp s - Skill.mp_cost skill)
  /\ (0 <= Stats.mp s -> 0 <= Stats.mp s')
  /\ target' = Entity.with_stats t' target
  /\ t' = Stats.with_status_effects (Stats.status_effects t')
            (Stats.with_hp (Stats.hp t') t).
Proof. apply use_skill_keeps. Qed.

Lemma modifier_after_stat_mod (s : Stats.t) (name : string)
    (power duration : Z) :
  Stats.get_stat_modifier
    (Stats.add_status_effect s
       (StatusEffect.mk name "stat_mod" "attack" power duration)) "attack"
  = Stats.get_stat_modifier s "attack"
    + match named name (Stats.status_effects s) with
      | [] => power
      | _ => 0
      end.
Proof.
  destruct (get_stat_modifier_add s
              (StatusEffect.mk name "stat_mod" "attack" power duration)
              "attack") as [Hnew Hold].
  simpl in Hnew, Hold.
  destruct (named name (Stats.status_effects s)) as [|x rest].
  - by rewrite Hnew.
  - rewrite Hold by done. lia.
Qed.

(** X13.  A buff the caster can pay for goes on the caster and leaves the
    target alone; a debuff goes on the target.  The first one of a name
    moves the attack modifier by [max 1 effect_amount]; while an effect of
    that name is there, another one costs the MP again and moves nothing. *)
Theorem attack_modifier_skills caster skill target w :
  Skill.mp_cost skill <= Stats.mp (Player.stats caster) ->
  let amount := Z.max 1 (Player.effect_amount caster skill) in
  let paid :=
    Player.with_stats
      (Stats.with_mp (Stats.mp (Player.stats caster) - Skill.mp_cost skill)
         (Player.stats caster)) caster in
  (Skill.skill_type skill = "buff" ->
   exists msg caster',
     Player.use_skill caster skill target w
     = Some (Some 0, msg, caster', target, w)
     /\ Stats.mp (Player.stats caster')
        = Stats.mp (Player.stats caster) - Skill.mp_cost skill
     /\ Stats.get_stat_modifier (Player.stats caster') "attack"
        = Stats.get_stat_modifier (Player.stats caster) "attack"
          + match named (Skill.name skill)
                    (Stats.status_effects (Player.stats caster)) with
            | [] => amount
            | _ => 0
            end)
  /\ (Skill.skill_type skill = "debuff" ->
      exists msg target',
        Player.use_skill caster skill target w
        = Some (Some 0, msg, paid, target', w)
        /\ Stats.get_stat_modifier (Entity.stats target') "attack"
           = Stats.get_stat_modifier (Entity.stats target) "attack"
             - match named (Skill.name skill)
                       (Stats.status_effects (Entity.stats target)) with
               | [] => amount
               | _ => 0
               end).
Proof.
  intros Hmp amount paid. subst amount paid.
  destruct (use_skill_cases caster skill target w)
    as [[Hno _]|[(_ & Ht & _)|[(_ & Ht & _)
       |[(_ & Ht & _)|[(_ & Ht & msg & H)
       |(_ & Ht & msg & e & H & He)]]]]]; [lia|..].
  - split; intros E; exfalso; apply Ht; rewrite E; unfold known_skill_types;
      rewrite !elem_of_cons; intuition.
  - split; intros E; congruence.
  - split; intros E; congruence.
  - split; intros E; [|congruence].
    eexists _, _. split; [exact H|].
    destruct caster as [[cn cs ca] ? ? ? ?]. cbn.
    rewrite modifier_after_stat_mod.
    split; [rewrite add_status_effect_frame|]; by destruct cs.
  - split; intros E; [rewrite E in Ht; exfalso; revert Ht;
                      rewrite !elem_of_cons, elem_of_nil;
                      intuition discriminate|].
    rewrite E in He. simpl in He. subst e.
    eexists _, _. split; [exact H|].
    destruct target as [tn ts ta]. cbn.
    rewrite modifier_after_stat_mod.
    destruct (named (Skill.name skill) (Stats.status_effects ts)); lia.
Qed.

End Skills.

(** ** Items *)

Section Items.

Implicit Types (p : Player.t) (item : Item.t) (inv : list Item.t)
               (name : string).

Lemma find_item_Some name inv item :
  Player.find_item name inv = Some item -> item ∈ inv /\ called name item.
Proof.
  induction inv as [|i inv IH]; [done|]. simpl.
  destruct (String.eqb_spec (lower (Item.name i)) (lower name)) as [E|E].
  - intros [= ->]. split; [apply list_elem_of_here | exact E].
  - intros H. destruct (IH H) as [Hin Hc].
    split; [by apply list_elem_of_further | exact Hc].
Qed.

Lemma find_item_None name inv :
  Player.find_item name inv = None <-> Forall (fun i => ~ called name i) inv.
Proof.
  induction inv as [|i inv IH]; simpl; [by split; intros; constructor|].
  destruct (String.eqb_spec (lower (Item.name i)) (lower name)) as [E|E].
  - split; [done|]. intros [Hi _]%Forall_cons. by destruct Hi.
  - rewrite IH, Forall_cons. by intuition.
Qed.

Lemma list_remove_Permutation item inv :
  item ∈ inv -> inv ≡ₚ item :: list_remove item inv.
Proof.
  induction inv as [|i inv IH]; [by intros ?%elem_of_nil|]. simpl.
  destruct (decide (i = item)) as [->|Hne]; [done|].
  intros [->|Hin]%elem_of_cons; [done|].
  rewrite (IH Hin) at 1. apply Permutation_swap.
Qed.

(** What [use_item] answers and does, case by case. *)
Lemma use_item_outcome p name :
  let r := Player.use_item p name in
  (r.1 = None <-> Forall (fun i => ~ called name i) (Player.inventory p))
  /\ (r.1 = None -> r.2 = p)
  /\ (forall msg, r.1 = Some msg -> msg <> "")
  /\ (r.2 = p
      \/ exists item v,
           Player.find_item name (Player.inventory p) = Some item
           /\ Player.inventory p ≡ₚ item :: Player.inventory r.2
           /\ r.2 = Player.with_inventory (Player.inventory r.2)
                      (Player.with_stats (Player.stats r.2) p)
           /\ (Player.stats r.2 = (Stats.heal (Player.stats p) v).2
               \/ Player.stats r.2 = Stats.restore_mp (Player.stats p) v)).
Proof.
  intros r. subst r. rewrite <- find_item_None.
  unfold Player.use_item.
  destruct (Player.find_item name (Player.inventory p)) as [item|] eqn:Hfind;
    [|by repeat split; auto].
  apply find_item_Some in Hfind as Hin. destruct Hin as [Hin _].
  assert (forall (b : string) (q : Player.t),
            (forall msg,
               (Some ("Used " +:+ b), q).1 = Some msg -> msg <> "")) as Hmsg
    by (intros b q msg [= <-]; discriminate).
  destruct (Item.effect item) as [effect|];
    [|split; [done|]; split; [done|]; split; [apply Hmsg | by left]].
  destruct (bool_decide (effect = ∅));
    [split; [done|]; split; [done|]; split; [apply Hmsg | by left]|].
  destruct (effect !! "hp") as [hp|] eqn:Hhp.
  - split; [done|]. split; [done|]. split; [apply Hmsg|].
    right. exists item, hp. repeat split; try done.
    + destruct p as [[] ? ? ? ?]. by apply list_remove_Permutation.
    + left. by destruct p as [[] ? ? ? ?].
  - destruct (effect !! "mp") as [mp|] eqn:Hmp.
    + split; [done|]. split; [done|]. split; [apply Hmsg|].
      right. exists item, mp. repeat split; try done.
      * destruct p as [[] ? ? ? ?]. by apply list_remove_Permutation.
      * right. by destruct p as [[] ? ? ? ?].
    + split; [done|]. split; [done|]. split; [apply Hmsg | by left].
Qed.

(** X14.  [use_item] answers [None], and does nothing, exactly when no
    item of the inventory goes by that name, whatever the case of the
    letters.  Otherwise it answers with a message that is not empty, and
    either leaves the player as it was (the first item of that name has
    nothing to restore), or takes exactly that item out of the inventory
    and restores [hp] through [heal], or else [mp] through [restore_mp];
    gold, skills and the other statistics stay. *)
Theorem use_item_takes_one_item p name :
  let r := Player.use_item p name in
  (r.1 = None <-> Forall (fun i => ~ called name i) (Player.inventory p))
  /\ (r.1 = None -> r.2 = p)
  /\ (forall msg, r.1 = Some msg -> msg <> "")
  /\ (r.2 = p
      \/ exists item v,
           Player.find_item name (Player.inventory p) = Some item
           /\ Player.inventory p ≡ₚ item :: Player.inventory r.2
           /\ r.2 = Player.with_inventory (Player.inventory r.2)
                      (Player.with_stats (Player.stats r.2) p)
           /\ (Player.stats r.2 = (Stats.heal (Player.stats p) v).2
               \/ Player.stats r.2 = Stats.restore_mp (Player.stats p) v)).
Proof. apply use_item_outcome. Qed.

(** An item of the inventory is always found under its own name. *)
Lemma use_item_own_name p item :
  item ∈ Player.inventory p ->
  exists msg p',
    Player.use_item p (Item.name item) = (Some msg, p')
    /\ String.eqb msg "" = false.
Proof.
  intros Hin.
  destruct (use_item_outcome p (Item.name item)) as (Hnone & _ & Hmsg & _).
  destruct (Player.use_item p (Item.name item)) as [[msg|] p'] eqn:Huse.
  - exists msg, p'. split; [done|]. apply String.eqb_neq. by apply Hmsg.
  - exfalso. destruct Hnone as [Hnone _].
    specialize (Hnone eq_refl).
    rewrite Forall_forall in Hnone. by apply (Hnone item Hin).
Qed.

End Items.

(** ** The menus of a combat *)

Section Menus.

Import CombatSystem.

Implicit Types (self : CombatSystem.t) (w : Env).

(** What the item menu does, by the key. *)
Lemma item_menu_outcome self w b self' w' :
  _handle_items self w = Some (b, self', w') ->
  exists line,
    stdin w = line :: stdin w' /\ rng w' = rng w /\ drawn w' = drawn w
    /\ enemy self' = enemy self /\ turn self' = turn self
    /\ (b = false -> self' = self)
    /\ (b = true
        <-> isdigit (strip line) = true
            /\ 1 <= int_of_str (strip line)
               <= Z.of_nat (length (Player.inventory (player self)))).
Proof.
  unfold _handle_items.
  destruct (Player.inventory (player self)) as [|i0 inv] eqn:Hinv;
    unfold bind, input, ret; cbn beta;
    destruct (stdin w) as [|line rest] eqn:Hin; try done.
  { intros [= <- <- <-]. exists line. repeat split; try done.
    simpl. lia. }
  destruct (String.eqb_spec (strip line) "0") as [H0|H0].
  { intros [= <- <- <-]. exists line. repeat split; try done.
    rewrite H0. change (int_of_str "0") with 0. lia. }
  destruct (isdigit (strip line)) eqn:Hdigit.
  2: { intros [= <- <- <-]. exists line. repeat split; try done.
       intros [Hd _]. congruence. }
  destruct (Z.leb_spec 0 (int_of_str (strip line) - 1)) as [Hlo|Hlo];
    cbn [andb].
  2: { intros [= <- <- <-]. exists line. repeat split; try done. lia. }
  destruct (Z.ltb_spec (int_of_str (strip line) - 1)
              (Z.of_nat (length (i0 :: inv)))) as [Hhi|Hhi].
  2: { intros [= <- <- <-]. exists line. repeat split; try done. lia. }
  destruct ((i0 :: inv) !! Z.to_nat (int_of_str (strip line) - 1))
    as [item|] eqn:Hitem.
  2: { apply lookup_ge_None in Hitem. lia. }
  destruct (use_item_own_name (player self) item)
    as (msg & p' & Huse & Hmsg).
  { rewrite Hinv. by apply list_elem_of_lookup_2 in Hitem. }
  rewrite Huse, Hmsg. intros [= <- <- <-]. exists line.
  repeat split; try done; lia.
Qed.


(** X16.  When every skill of the player has one of the six types, a
    skill menu that does not cost the turn (back, a wrong key, or not enough
    MP) changes neither the player nor the enemy and draws no random
    number; the only trace it can leave is the message about the MP. *)
Theorem skill_menu_declined self w self' w' :
  Forall (fun sk => Skill.skill_type sk ∈ known_skill_types)
    (Player.skills (player self)) ->
  _handle_skills self w = Some (false, self', w') ->
  player self' = player self /\ enemy self' = enemy self
  /\ turn self' = turn self
  /\ rng w' = rng w /\ drawn w' = drawn w
  /\ (self' = self
      \/ exists cost,
           messages self'
           = messages self
             ++ ["Not enough MP! Need " +:+ str cost +:+ " MP."]).
Proof.
  intros Hknown. unfold _handle_skills, bind, input, ret. cbn beta.
  destruct (stdin w) as [|line rest] eqn:Hin; [done|].
  destruct (String.eqb (strip line) "0");
    [intros [= <- <-]; repeat split; auto|].
  destruct (isdigit (strip line));
    [|intros [= <- <-]; repeat split; auto].
  destruct ((0 <=? int_of_str (strip line) - 1)
            && (int_of_str (strip line) - 1
                <? Z.of_nat (length (Player.skills (player self)))));
    [|intros [= <- <-]; repeat split; auto].
  destruct (Player.skills (player self)
              !! Z.to_nat (int_of_str (strip line) - 1))
    as [skill|] eqn:Hskill; [|intros [= <- <-]; repeat split; auto].
  assert (Skill.skill_type skill ∈ known_skill_types) as Htype.
  { rewrite Forall_forall in Hknown. apply Hknown.
    by apply list_elem_of_lookup_2 in Hskill. }
  destruct (use_skill_cases (player self) skill (Enemy.entity (enemy self))
              (mk_env rest (rng w) (drawn w)))
    as [[Hmp ->]|[(Hmp & Ht & _)|[(Hmp & Ht & d & m & ->)
       |[(Hmp & Ht & m & ->)|[(Hmp & Ht & m & ->)
       |(Hmp & Ht & m & e & -> & _)]]]]]; try done.
  destruct rest as [|enter rest]; [done|]. cbn.
  intros [= <- <-].
  destruct self as [[[] ? ? ? ?] [[] ? ?] ? ?]. cbn.
  repeat split; try done. right. by eexists.
Qed.

(** X17.  The enemy's turn never changes the enemy and logs one message.
    A stunned enemy does nothing more and draws no random number.
    Otherwise one number is drawn and the player loses at least 1 HP, down
    to 0 at most; nothing else of the player changes. *)
Theorem enemy_turn_outcome self w self' w' :
  _enemy_turn self w = Some (self', w') ->
  let hp := Stats.hp (Player.stats (player self)) in
  exists msg hp',
    self' = append msg
              (with_player
                 (Player.with_stats
                    (Stats.with_hp hp' (Player.stats (player self)))
                    (player self)) self)
    /\ (Stats.is_stunned (Enemy.stats (enemy self)) = true ->
        hp' = hp /\ w' = w)
    /\ (Stats.is_stunned (Enemy.stats (enemy self)) = false ->
        w' = after_draw w
        /\ exists damage, 1 <= damage /\ hp' = Z.max 0 (hp - damage)).
Proof.
  unfold _enemy_turn, bind, ret.
  destruct (Stats.is_stunned (Enemy.stats (enemy self))).
  - intros [= <- <-].
    eexists _, (Stats.hp (Player.stats (player self))).
    repeat split; try done.
    by destruct self as [[[? [] ?] ? ? ? ?] ? ? ?].
  - unfold Entity.basic_attack, bind, ret. rewrite uniform_draw.
    cbn beta iota. unfold Stats.take_damage. cbn beta iota zeta.
    intros [= <- <-]. eexists _, _. split; [|split; [done|]].
    + by destruct self as [[[? [] ?] ? ? ? ?] ? ? ?].
    + intros _. split; [done|]. eexists. split; [|reflexivity]. lia.
Qed.


(** X19.  When the player is not stunned and the item menu or the skill
    menu does not cost the turn, the pass ends there: the enemy does not
    act and nothing is ticked.  After the item menu the combat is as at the
    start of the pass but for the turn counter, which has moved on. *)
Theorem declined_menu_skips_the_turn self w line rest self1 w1 :
  stdin w = line :: rest ->
  Stats.is_stunned (Player.stats (player self)) = false ->
  let start := with_turn (turn self + 1) self in
  let w0 := mk_env rest (rng w) (drawn w) in
  (strip line = "3" ->
   _handle_items start w0 = Some (false, self1, w1) ->
   turn_body self w = Some (Continue start, w1))
  /\ (strip line = "2" ->
      _handle_skills start w0 = Some (false, self1, w1) ->
      turn_body self w = Some (Continue self1, w1)).
Proof.
  intros Hin Hstun start w0.
  split; intros Hkey Hmenu.
  - destruct (item_menu_outcome _ _ _ _ _ Hmenu)
      as (_ & _ & _ & _ & _ & _ & Hsame & _).
    rewrite Hsame in Hmenu by done.
    unfold turn_body, bind, input. cbn [player with_turn].
    rewrite Hstun, Hin. unfold player_turn. rewrite Hkey.
    cbn [String.eqb Ascii.eqb Bool.eqb andb]. unfold bind. fold start w0.
    by rewrite Hmenu.
  - unfold turn_body, bind, input. cbn [player with_turn].
    rewrite Hstun, Hin. unfold player_turn. rewrite Hkey.
    cbn [String.eqb Ascii.eqb Bool.eqb andb]. unfold bind. fold start w0.
    by rewrite Hmenu.
Qed.

End Menus.

(** ** How a combat ends *)

Section Verdict.

Import CombatSystem.

Implicit Types (self : CombatSystem.t) (w : Env).

Lemma gain_exp_level (p : Player.t) (amount : Z) :
  let s := Player.stats p in
  Stats.level (Player.stats (Player.gain_exp p amount))
  = if Stats.level s * 100 <=? Stats.exp s + amount
    then Stats.level s + 1
    else Stats.level s.
Proof.
  destruct p as [[n [] a] ? ? ? ?]. unfold Player.gain_exp. cbn.
  by destruct (_ <=? _).
Qed.

(** What [_handle_victory] does. *)
Lemma handle_victory_outcome self w b self' w' :
  _handle_victory self w = Some (b, self', w') ->
  let p := player self in
  let e := enemy self in
  let levelled :=
    Stats.level (Player.stats p) * 100
    <=? Stats.exp (Player.stats p) + Enemy.exp_reward e in
  b = true /\ enemy self' = e /\ turn self' = turn self
  /\ player self'
     = Player.with_gold (Player.gold p + Enemy.gold_reward e)
         (Player.gain_exp p (Enemy.exp_reward e))
  /\ messages self'
     = messages self
       ++ [Enemy.name e +:+ " defeated!";
           "Gained " +:+ str (Enemy.exp_reward e) +:+ " EXP and " +:+
           str (Enemy.gold_reward e) +:+ " gold!"]
       ++ (if levelled
           then ["[LEVEL UP!] Now level " +:+
                 str (Stats.level (Player.stats p) + 1) +:+ "!"]
           else [])
  /\ (exists line, stdin w = line :: stdin w')
  /\ rng w' = rng w /\ drawn w' = drawn w.
Proof.
  unfold _handle_victory, bind, input, ret. cbn beta zeta.
  destruct (stdin w) as [|line rest] eqn:Hin; [done|].
  intros [= <- <- <-].
  cbn [player enemy messages turn append extend with_player].
  pose proof (gain_exp_level (player self) (Enemy.exp_reward (enemy self)))
    as Hlevel. cbn zeta in Hlevel.
  assert (Player.stats
            (Player.with_gold
               (Player.gold
                  (Player.gain_exp (player self)
                     (Enemy.exp_reward (enemy self)))
                + Enemy.gold_reward (enemy self))
               (Player.gain_exp (player self)
                  (Enemy.exp_reward (enemy self))))
          = Player.stats
              (Player.gain_exp (player self)
                 (Enemy.exp_reward (enemy self)))) as Hstats by done.
  rewrite Hstats, Hlevel.
  assert (Player.gold
            (Player.gain_exp (player self) (Enemy.exp_reward (enemy self)))
          = Player.gold (player self)) as Hgold.
  { unfold Player.gain_exp. by destruct (_ <=? _). }
  rewrite Hgold.
  destruct (Z.leb_spec
              (Stats.level (Player.stats (player self)) * 100)
              (Stats.exp (Player.stats (player self))
               + Enemy.exp_reward (enemy self))) as [Hup|Hno].
  - replace (Stats.level (Player.stats (player self))
             <? Stats.level (Player.stats (player self)) + 1)
      with true by (symmetry; apply Z.ltb_lt; lia).
    cbn [player enemy messages turn append extend with_player].
    rewrite ?Hstats, ?Hlevel.
    replace (Stats.level (Player.stats (player self)) * 100
             <=? Stats.exp (Player.stats (player self))
                 + Enemy.exp_reward (enemy self))
      with true by (symmetry; apply Z.leb_le; lia).
    rewrite <- !app_assoc. repeat split; try done. by eexists.
  - rewrite Z.ltb_irrefl.
    cbn [player enemy messages turn append extend with_player].
    rewrite app_nil_r, <- !app_assoc. repeat split; try done. by eexists.
Qed.

(** X20.  [_handle_victory] always answers [True] and waits for one key.
    The player gets the enemy's gold and, through [gain_exp], its
    experience; the log gets the defeat and the reward, and the level-up
    line exactly when the new experience reaches [level * 100]. *)
Theorem victory_rewards self w b self' w' :
  _handle_victory self w = Some (b, self', w') ->
  let p := player self in
  let e := enemy self in
  let levelled :=
    Stats.level (Player.stats p) * 100
    <=? Stats.exp (Player.stats p) + Enemy.exp_reward e in
  b = true /\ enemy self' = e /\ turn self' = turn self
  /\ player self'
     = Player.with_gold (Player.gold p + Enemy.gold_reward e)
         (Player.gain_exp p (Enemy.exp_reward e))
  /\ messages self'
     = messages self
       ++ [Enemy.name e +:+ " defeated!";
           "Gained " +:+ str (Enemy.exp_reward e) +:+ " EXP and " +:+
           str (Enemy.gold_reward e) +:+ " gold!"]
       ++ (if levelled
           then ["[LEVEL UP!] Now level " +:+
                 str (Stats.level (Player.stats p) + 1) +:+ "!"]
           else [])
  /\ (exists line, stdin w = line :: stdin w')
  /\ rng w' = rng w /\ drawn w' = drawn w.
Proof. apply handle_victory_outcome. Qed.

(** The skill menu keeps the gold and the rewards. *)
Lemma handle_skills_keeps self w b self' w' :
  _handle_skills self w = Some (b, self', w') ->
  Player.gold (player self') = Player.gold (player self)
  /\ Enemy.gold_reward (enemy self') = Enemy.gold_reward (enemy self)
  /\ Enemy.exp_reward (enemy self') = Enemy.exp_reward (enemy self).
Proof.
  unfold _handle_skills, bind, input, ret. cbn beta.
  destruct (stdin w) as [|line rest]; [done|].
  destruct (String.eqb (strip line) "0"); [by intros [= <- <- <-]|].
  destruct (isdigit (strip line)); [|by intros [= <- <- <-]].
  destruct (_ && _); [|by intros [= <- <- <-]].
  destruct (_ !! _) as [skill|]; [|by intros [= <- <- <-]].
  destruct (Player.use_skill _ _ _ _) as [[[[[d msg] p] e] w2]|] eqn:Huse;
    [|done].
  apply use_skill_keeps in Huse as (_ & _ & -> & _).
  destruct d; cbn.
  - by intros [= <- <- <-].
  - destruct (stdin w2); [done|]. by intros [= <- <- <-].
Qed.

(** How a pass of the loop can return. *)
Lemma turn_body_return self w b self' w' :
  turn_body self w = Some (Return b self', w') ->
  (b = true
   /\ Stats.is_alive (Enemy.stats (enemy self')) = false
   /\ Player.gold (player self')
      = Player.gold (player self) + Enemy.gold_reward (enemy self))
  \/ (b = false
      /\ player self' = player self /\ enemy self' = enemy self
      /\ messages self'
         = messages self
           ++ [Player.name (player self) +:+ " successfully fled!"]).
Proof.
  unfold turn_body, bind, ret. cbn [player with_turn].
  destruct (Stats.is_stunned (Player.stats (player self))).
  { destruct (input w) as [[? w1]|]; [|done].
    by destruct (_enemy_turn _ w1) as [[? ?]|]. }
  destruct (input w) as [[line w1]|]; [|done].
  destruct (player_turn (strip line) _ w1) as [[f w2]|] eqn:Hturn; [|done].
  destruct f as [?|?|b0 s0]; try done. intros [= -> -> ->].
  revert Hturn. unfold player_turn, bind, ret.
  set (start := with_turn (turn self + 1) self).
  destruct (String.eqb (strip line) "1").
  { destruct (Entity.basic_attack _ _ w1) as [[[[d msg] e] w3]|]; [|done].
    cbn beta iota zeta.
    destruct (negb (Stats.is_alive _)) eqn:Hdead.
    2: { by destruct (_enemy_turn _ w3) as [[? ?]|]. }
    destruct (_handle_victory _ w3) as [[[bv sv] wv]|] eqn:Hv; [|done].
    intros [= <- <- <-].
    apply handle_victory_outcome in Hv
      as (-> & He & _ & Hp & _).
    left. rewrite He, Hp. apply negb_true_iff in Hdead.
    by repeat split. }
  destruct (String.eqb (strip line) "2").
  { destruct (_handle_skills start w1) as [[[used s2] w3]|] eqn:Hskills;
      [|done].
    cbn beta iota zeta. destruct used; [|done].
    destruct (negb (Stats.is_alive _)) eqn:Hdead.
    2: { by destruct (_enemy_turn _ w3) as [[? ?]|]. }
    destruct (_handle_victory _ w3) as [[[bv sv] wv]|] eqn:Hv; [|done].
    intros [= <- <- <-].
    apply handle_victory_outcome in Hv as (-> & He & _ & Hp & _).
    apply handle_skills_keeps in Hskills as (Hgold & Hreward & _).
    left. rewrite He, Hp. apply negb_true_iff in Hdead.
    repeat split; try done. cbn. by rewrite Hgold, Hreward. }
  destruct (String.eqb (strip line) "3").
  { destruct (_handle_items start w1) as [[[used s2] w3]|]; [|done].
    cbn beta iota zeta. destruct used; [|done].
    by destruct (_enemy_turn _ w3) as [[? ?]|]. }
  destruct (String.eqb (strip line) "4"); [|done].
  unfold _attempt_flee, bind, random, ret, input. cbn beta iota zeta.
  destruct (Qlt_bool _ _).
  - cbn [stdin]. destruct (stdin w1); [done|].
    intros [= <- <- <-]. by right.
  - by destruct (_enemy_turn _ _) as [[? ?]|].
Qed.

(** X21.  A pass of the loop returns in two ways only.  It returns [True]
    with the enemy not alive and the enemy's gold added to the player's; or
    it returns [False] after a flight, with the player and the enemy as
    they were and the flight logged. *)
Theorem pass_returns_on_victory_or_flight self w b self' w' :
  turn_body self w = Some (Return b self', w') ->
  (b = true
   /\ Stats.is_alive (Enemy.stats (enemy self')) = false
   /\ Player.gold (player self')
      = Player.gold (player self) + Enemy.gold_reward (enemy self))
  \/ (b = false
      /\ player self' = player self /\ enemy self' = enemy self
      /\ messages self'
         = messages self
           ++ [Player.name (player self) +:+ " successfully fled!"]).
Proof. apply turn_body_return. Qed.

(** X22.  Whenever [run_combat] returns [True], the enemy is not alive.
    Whenever it returns [False], either the player is not alive, or both
    are alive and the player has fled. *)
Theorem run_combat_verdict fuel self w b self' w' :
  run_combat fuel self w = Some (Some (b, self'), w') ->
  (b = true -> Stats.is_alive (Enemy.stats (enemy self')) = false)
  /\ (b = false ->
      Stats.is_alive (Player.stats (player self')) = false
      \/ (active self' = true
          /\ exists name,
               last (messages self') = Some (name +:+ " successfully fled!"))).
Proof.
  revert self w. induction fuel as [|fuel IH]; intros self w; cbn [run_combat].
  all: destruct (active self) eqn:Hactive.
  all: try (unfold bind, ret; discriminate).
  2: { unfold bind at 1.
       destruct (turn_body self w) as [[f w1]|] eqn:Hturn; [|done].
       destruct f as [s1|s1|b1 s1].
       - apply IH.
       - apply IH.
       - unfold ret. intros [= <- <- <-].
         destruct (turn_body_return _ _ _ _ _ Hturn)
           as [(-> & Hdead & _)|(-> & Hp & He & Hm)].
         + by split.
         + split; [done|]. intros _. right. split.
           * unfold active in *. by rewrite Hp, He.
           * eexists. rewrite Hm. apply last_snoc. } 
  all: unfold after_loop.
  all: destruct (Stats.is_alive (Player.stats (player self))) eqn:Hp;
    cbn [negb]; cbv beta delta [bind ret input].
  all: try (destruct (stdin w); [done|]).
  all: intros [= <- <- <-].
  all: unfold active in Hactive; rewrite Hp in Hactive; cbn in Hactive.
  all: split; try done; auto.
Qed.

End Verdict.

(** ** Experience *)

Lemma py_int_tenth_nonneg (n : Z) : 0 <= n -> 0 <= py_int (inject_Z n * 0.1).
Proof.
  intros Hn. rewrite py_int_tenth by done. unfold Qfloor. simpl.
  apply Z.div_pos; lia.
Qed.

(** X23.  [gain_exp] never lowers the level, and a level-up keeps the
    experience: a later call, even with nothing to add, levels up again
    when the experience already reaches the next threshold.  Pools that
    are within their maximum stay so, and non-negative [max_hp], [max_mp]
    and [attack] never shrink. *)
Theorem gain_exp_keeps_experience_and_ranges (p : Player.t) (amount : Z) :
  let s := Player.stats p in
  let p' := Player.gain_exp p amount in
  let s' := Player.stats p' in
  Stats.level s <= Stats.level s'
  /\ (Stats.level s' * 100 <= Stats.exp s + amount ->
      Stats.level (Player.stats (Player.gain_exp p' 0)) = Stats.level s' + 1)
  /\ (Stats.hp s <= Stats.max_hp s -> Stats.hp s' <= Stats.max_hp s')
  /\ (Stats.mp s <= Stats.max_mp s -> Stats.mp s' <= Stats.max_mp s')
  /\ (0 <= Stats.max_hp s -> Stats.max_hp s <= Stats.max_hp s')
  /\ (0 <= Stats.max_mp s -> Stats.max_mp s <= Stats.max_mp s')
  /\ (0 <= Stats.attack s -> Stats.attack s <= Stats.attack s').
Proof.
  intros s p' s'. subst s p' s'.
  destruct p as [[n [hp mhp mp mmp atk spd lvl exp l] a] c i sk g].
  unfold Player.gain_exp, Player.stats. cbn.
  destruct (Z.leb_spec (lvl * 100) (exp + amount)); cbn.
  - pose proof (py_int_tenth_nonneg mhp). pose proof (py_int_tenth_nonneg mmp).
    pose proof (py_int_tenth_nonneg atk).
    repeat split; try lia.
    intros Hnext. rewrite Z.add_0_r.
    destruct (Z.leb_spec ((lvl + 1) * 100) (exp + amount)); [done|lia].
  - repeat split; try lia.
Qed.

(** ** A stun skill in combat *)

Section StunSkill.

Import CombatSystem.

Implicit Types (self : CombatSystem.t) (w : Env) (s : Stats.t).

Lemma is_stunned_after_stun s (duration : Z) :
  named "Stunned" (Stats.status_effects s) = []
  \/ Stats.is_stunned s = true ->
  Stats.is_stunned
    (Stats.add_status_effect s (StatusEffect.mk "Stunned" "stun" "" 0 duration))
  = true.
Proof.
  unfold Stats.is_stunned, Stats.add_status_effect.
  destruct (merge_cases (StatusEffect.mk "Stunned" "stun" "" 0 duration)
              (Stats.status_effects s))
    as [[-> _]|(l1 & x & l2 & -> & Hl & Hx & Hl1)].
  - intros _. destruct s; simpl. rewrite List.existsb_app. simpl.
    apply orb_true_r.
  - intros [Hnil|Hstun].
    + rewrite Hl, named_app in Hnil. simpl in Hnil. simpl in Hx.
      rewrite Hx in Hnil. simpl in Hnil. by destruct (named _ l1).
    + rewrite Hl in Hstun. destruct s; simpl in *.
      rewrite List.existsb_app in *. simpl in *. exact Hstun.
Qed.

(** X24.  When a player who is not stunned picks, in the skill menu, a
    stun skill that can be paid for, against an enemy that is alive and
    either is stunned or has no effect called Stunned, the enemy does not
    attack in that pass: no random number is drawn and the player's
    statistics are those after paying, ticked once.  Against an enemy with
    no effect at all, a stun of one turn is over at the end of the pass:
    the enemy's statistics are what they were. *)
Theorem stun_skill_costs_the_enemy_its_turn self w key rest (skill : Skill.t) :
  stdin w = "2" :: key :: rest ->
  isdigit (strip key) = true ->
  1 <= int_of_str (strip key) ->
  Player.skills (player self) !! Z.to_nat (int_of_str (strip key) - 1)
  = Some skill ->
  Skill.skill_type skill = "stun" ->
  Skill.mp_cost skill <= Stats.mp (Player.stats (player self)) ->
  Stats.is_stunned (Player.stats (player self)) = false ->
  Stats.is_alive (Enemy.stats (enemy self)) = true ->
  named "Stunned" (Stats.status_effects (Enemy.stats (enemy self))) = []
  \/ Stats.is_stunned (Enemy.stats (enemy self)) = true ->
  exists self',
    turn_body self w = Some (Continue self', mk_env rest (rng w) (drawn w))
    /\ Player.stats (player self')
       = (Stats.tick_status_effects
            (Stats.with_mp
               (Stats.mp (Player.stats (player self)) - Skill.mp_cost skill)
               (Player.stats (player self)))).2
    /\ (Skill.duration skill = 1 ->
        Stats.status_effects (Enemy.stats (enemy self)) = [] ->
        Enemy.stats (enemy self') = Enemy.stats (enemy self)).
Proof.
  intros Hin Hdigit Hpos Hskill Htype Hmp Hps Halive Hfresh.
  pose proof (lookup_lt_Some _ _ _ Hskill) as Hlt.
  set (stun := StatusEffect.mk "Stunned" "stun" "" 0 (Skill.duration skill)).
  assert (Player.use_skill (player self) skill (Enemy.entity (enemy self))
            (mk_env rest (rng w) (drawn w))
          = Some (Some 0,
                  Player.name (player self) +:+ " uses " +:+
                  Skill.name skill +:+ "! " +:+ Enemy.name (enemy self) +:+
                  " is stunned for " +:+ str (Skill.duration skill) +:+
                  " turns!",
                  Player.with_stats
                    (Stats.with_mp
                       (Stats.mp (Player.stats (player self))
                        - Skill.mp_cost skill)
                       (Player.stats (player self))) (player self),
                  Entity.with_stats
                    (Stats.add_status_effect (Enemy.stats (enemy self)) stun)
                    (Enemy.entity (enemy self)),
                  mk_env rest (rng w) (drawn w))) as Huse.
  { unfold Player.use_skill, Stats.use_mp.
    apply Z.leb_le in Hmp. rewrite Hmp, Htype. reflexivity. }
  pose proof (is_stunned_after_stun (Enemy.stats (enemy self))
                (Skill.duration skill) Hfresh) as Hstunned.
  fold stun in Hstunned.
  set (start := with_turn (turn self + 1) self).
  set (w0 := mk_env (key :: rest) (rng w) (drawn w)).
  set (w1 := mk_env rest (rng w) (drawn w)) in *.
  set (hit :=
         append
           (Player.name (player self) +:+ " uses " +:+
            Skill.name skill +:+ "! " +:+ Enemy.name (enemy self) +:+
            " is stunned for " +:+ str (Skill.duration skill) +:+ " turns!")
           (with_enemy
              (Enemy.with_entity
                 (Entity.with_stats
                    (Stats.add_status_effect (Enemy.stats (enemy self)) stun)
                    (Enemy.entity (enemy self))) (enemy self))
              (with_player
                 (Player.with_stats
                    (Stats.with_mp
                       (Stats.mp (Player.stats (player self))
                        - Skill.mp_cost skill)
                       (Player.stats (player self))) (player self))
                 start))).
  assert (_handle_skills start w0 = Some (true, hit, w1)) as Hmenu.
  { unfold _handle_skills, bind at 1, input. cbn [stdin w0].
    destruct (String.eqb_spec (strip key) "0") as [E|_].
    { rewrite E in Hpos. change (int_of_str "0") with 0 in Hpos. lia. }
    rewrite Hdigit. cbn [player with_turn start].
    replace (0 <=? int_of_str (strip key) - 1) with true
      by (symmetry; apply Z.leb_le; lia).
    replace (int_of_str (strip key) - 1
             <? Z.of_nat (length (Player.skills (player self))))
      with true by (symmetry; apply Z.ltb_lt; lia).
    cbn [andb]. rewrite Hskill. unfold bind at 1.
    change (enemy start) with (enemy self).
    change (mk_env rest (rng w0) (drawn w0)) with w1. by rewrite Huse. }
  assert (Stats.is_alive (Enemy.stats (enemy hit)) = true) as Halive'.
  { rewrite <- Halive. unfold hit, Stats.is_alive. cbn.
    rewrite add_status_effect_frame. by destruct (Enemy.stats (enemy self)). }
  assert (Stats.is_stunned (Enemy.stats (enemy hit)) = true) as Hstunned'
    by exact Hstunned.
  set (skipped :=
         append (Enemy.name (enemy hit) +:+ " is stunned and cannot act!")
           hit).
  assert (_enemy_turn hit w1 = Some (skipped, w1)) as Henemy
    by (unfold _enemy_turn; by rewrite Hstunned').
  exists (_end_of_turn skipped). split; [|split].
  - unfold turn_body, bind, input. cbn [player with_turn]. rewrite Hps, Hin.
    change (strip "2") with "2". unfold player_turn.
    cbn [String.eqb Ascii.eqb Bool.eqb andb]. unfold bind.
    fold start w0. rewrite Hmenu, Halive'. cbn [negb].
    by rewrite Henemy.
  - destruct (end_of_turn_fields skipped) as (-> & _ & _).
    subst skipped hit. cbn.
    by destruct (player self) as [[] ? ? ? ?].
  - intros Hone Hnone.
    destruct (end_of_turn_fields skipped) as (_ & -> & _).
    subst skipped hit stun. cbn. rewrite Hone.
    destruct (enemy self) as [[en [] ea] ? ?]. cbn in *. subst.
    reflexivity.
Qed.

End StunSkill.

(** ** The text helpers of display.py *)

Section Layout.

Import Display.

Lemma len_app (a b : string) : len (a +:+ b) = len a + len b.
Proof.
  unfold len. induction a as [|c a IH]; [done|].
  change (String c a +:+ b) with (String c (a +:+ b)).
  cbn [String.length]. lia.
Qed.

Lemma len_spaces (n : Z) : len (spaces n) = Z.max 0 n.
Proof.
  unfold len, spaces.
  assert (forall k, String.length (replicate_space k) = k) as ->
    by (induction k; simpl; congruence).
  lia.
Qed.

Lemma spaces_nonpos (n : Z) : n <= 0 -> spaces n = "".
Proof.
  intros Hn. unfold spaces. by replace (Z.to_nat n) with O by lia.
Qed.

Lemma len_substring (k : nat) (s : string) :
  (k <= String.length s)%nat -> String.length (String.substring 0 k s) = k.
Proof.
  revert k. induction s as [|c s IH]; intros [|k] Hk; simpl in *; try lia.
  rewrite IH; lia.
Qed.

Lemma len_slice_to (n : Z) (s : string) :
  len (slice_to n s)
  = if n <? 0 then Z.max 0 (len s + n) else Z.min n (len s).
Proof.
  unfold slice_to, len at 1. rewrite len_substring.
  - unfold len. destruct (n <? 0) eqn:E; lia.
  - unfold len. destruct (n <? 0) eqn:E; lia.
Qed.

Lemma split_lines_length (s : string) :
  length (split_lines s) = S (line_feeds s).
Proof.
  induction s as [|c s IH]; [done|]. cbn [split_lines line_feeds].
  destruct (Ascii.eqb c "010"); cbn [length]; [by rewrite IH|].
  destruct (split_lines s); simpl in *; lia.
Qed.

Lemma split_lines_no_feed (s : string) :
  Forall (fun line => line_feeds line = O) (split_lines s).
Proof.
  induction s as [|c s IH]; [by constructor|]. cbn [split_lines].
  destruct (Ascii.eqb c "010") eqn:E; [by constructor|].
  destruct (split_lines s) as [|line lines].
  - constructor; [|done]. simpl. by rewrite E.
  - inversion IH; subst. constructor; [|done]. simpl. by rewrite E.
Qed.

(** Joining the lines with line feeds gives the text back. *)
Lemma split_lines_join (s : string) :
  String.concat (String "010" "") (split_lines s) = s.
Proof.
  induction s as [|c s IH]; [done|]. cbn [split_lines].
  destruct (Ascii.eqb_spec c "010") as [->|_].
  - destruct (split_lines s) as [|line lines] eqn:E.
    + pose proof (split_lines_length s) as H. by rewrite E in H.
    + cbn [String.concat]. cbn [String.concat] in IH. by rewrite IH.
  - destruct (split_lines s) as [|line lines] eqn:E.
    + pose proof (split_lines_length s) as H. by rewrite E in H.
    + destruct lines; cbn [String.concat] in *; by rewrite <- IH.
Qed.

(** X25.  [center_text] never cuts the text: it only puts spaces in front
    of it.  In a width that holds the text, the margin on the left is the
    margin on the right or one less; in a width with less than two columns
    to spare, the text comes back as it is. *)
Theorem center_text_margins (text : string) (width : Z) :
  let out := center_text text width in
  let left := len out - len text in
  let right := width - len out in
  out = spaces left +:+ text
  /\ (len text <= width -> 0 <= left <= right /\ right <= left + 1)
  /\ (width < len text + 2 -> out = text).
Proof.
  intros out left right. subst out left right. unfold center_text.
  rewrite len_app, len_spaces.
  set (n := len text). set (p := (width - n) / 2).
  assert (2 * p <= width - n < 2 * p + 2) as Hp.
  { unfold p. pose proof (Z.div_mod (width - n) 2 ltac:(lia)).
    pose proof (Z.mod_pos_bound (width - n) 2 ltac:(lia)). lia. }
  split; [|split].
  - destruct (Z.le_gt_cases p 0) as [H|H].
    + rewrite !spaces_nonpos; [done|lia..].
    + f_equal. f_equal. lia.
  - lia.
  - intros Hw. rewrite spaces_nonpos; [done|lia].
Qed.

(** X26.  [render_ascii_art] answers one line for each line of the
    picture, that is one more than the picture has line feeds.  In a width
    of 4 or more, every line of the answer has at most [width - 4]
    characters.  In a width below 4 no line is centred and each one only
    loses its last [4 - width] characters, whatever the width. *)
Theorem render_ascii_art_fits (art : string) (width : Z) :
  let lines := split_lines art in
  let out := render_ascii_art art width in
  length out = S (line_feeds art)
  /\ (4 <= width -> Forall (fun line => len line <= width - 4) out)
  /\ (width < 4 ->
      out = List.map
              (fun line =>
                 String.substring 0 (Z.to_nat (len line - (4 - width))) line)
              lines).
Proof.
  unfold render_ascii_art. split; [|split].
  - by rewrite length_map, split_lines_length.
  - intros Hw. apply Forall_map, Forall_forall. intros line _. cbn beta.
    destruct (Z.ltb_spec (len line) (width - 4)).
    + unfold center_text. rewrite len_app, len_spaces.
      pose proof (Z.div_mod (width - 2 - len line) 2 ltac:(lia)).
      pose proof (Z.mod_pos_bound (width - 2 - len line) 2 ltac:(lia)). lia.
    + rewrite len_slice_to. destruct (Z.ltb_spec (width - 4) 0); lia.
  - intros Hw. apply map_ext. intros line.
    assert (0 <= len line) by (unfold len; lia).
    destruct (Z.ltb_spec (len line) (width - 4)); [lia|].
    unfold slice_to. destruct (Z.ltb_spec (width - 4) 0); [|lia].
    f_equal. lia.
Qed.

End Layout.

(** ** The text of the effects *)

Section EffectsText.

Lemma last_char_app (a b : string) :
  last_char (a +:+ b)
  = match last_char b with
    | None => last_char a
    | found => found
    end.
Proof.
  induction a as [|c a IH].
  - change ("" +:+ b) with b. by destruct (last_char b).
  - change (String c a +:+ b) with (String c (a +:+ b)).
    cbn [last_char]. rewrite IH.
    by destruct (last_char b), (last_char a).
Qed.

Lemma effect_text_last (e : StatusEffect.t) (t : string) :
  Stats.effect_text e = Some t -> last_char t = Some ")"%char.
Proof.
  unfold Stats.effect_text.
  repeat case_match; intros [= <-]; by rewrite !last_char_app.
Qed.

Lemma concat_last (c : ascii) (sep : string) (l : list string) :
  l <> [] -> Forall (fun t => last_char t = Some c) l ->
  last_char (String.concat sep l) = Some c.
Proof.
  induction l as [|x [|y l] IH]; [done|..]; intros _ Hl.
  - by inversion Hl.
  - inversion Hl as [|? ? Hx Hrest]; subst.
    cbn [String.concat]. rewrite !last_char_app.
    cbn [String.concat] in IH. by rewrite IH.
Qed.

(** X27.  [get_status_effects_text] answers ["None"] exactly when there
    is no effect.  Effects whose type is none of [stat_mod],
    [damage_over_time] and [stun] are left out: with only such effects the
    text is empty, not ["None"]; a single effect of a known type gives its
    own entry. *)
Theorem status_text_none_iff_no_effect (s : Stats.t) :
  let l := Stats.status_effects s in
  (Stats.get_status_effects_text s = "None" <-> l = [])
  /\ (l <> [] -> Forall (fun e => Stats.effect_text e = None) l ->
      Stats.get_status_effects_text s = "")
  /\ (forall e, l = [e] ->
      Stats.effect_text e = Some (Stats.get_status_effects_text s)
      \/ Stats.effect_text e = None).
Proof.
  intros l. subst l. unfold Stats.get_status_effects_text.
  destruct (Stats.status_effects s) as [|e l]; [by repeat split|].
  set (texts := omap Stats.effect_text (e :: l)).
  assert (Forall (fun t => last_char t = Some ")"%char) texts) as Hlast.
  { apply Forall_forall. intros t (x & _ & Hx)%list_elem_of_omap.
    by apply effect_text_last in Hx. }
  split; [|split].
  - split; [|done]. intros Htext. exfalso.
    clearbody texts. destruct texts as [|t ts]; [done|].
    apply (concat_last _ ", ") in Hlast; [|done].
    rewrite Htext in Hlast. discriminate.
  - intros _ Hnone. subst texts.
    replace (omap Stats.effect_text (e :: l)) with (@nil string); [done|].
    symmetry. clear Hlast. induction Hnone as [|x xs Hx _ IH]; [done|].
    cbn [omap list_omap]. by rewrite Hx.
  - intros e' [= <- ->]. subst texts. cbn [omap list_omap].
    destruct (Stats.effect_text e); [by left|by right].
Qed.

End EffectsText.

(** ** Running away *)

Section Flight.

Import CombatSystem.

(** X28.  When the player is not stunned and the key is 4, one random
    number is drawn.  Below one half the flight succeeds: one more key is
    read and the pass returns [False], with nobody hurt and nothing ticked.
    Otherwise the flight fails and costs the turn: the enemy acts and the
    end-of-turn tick runs. *)
Theorem flee_on_the_draw self w rest :
  stdin w = "4" :: rest ->
  Stats.is_stunned (Player.stats (player self)) = false ->
  let start := with_turn (turn self + 1) self in
  let w1 := mk_env rest (rng w) (S (drawn w)) in
  ((rng w (drawn w) < 1 # 2)%Q ->
   forall key rest', rest = key :: rest' ->
     turn_body self w
     = Some (Return false
               (append (Player.name (player self) +:+ " successfully fled!")
                  start),
             mk_env rest' (rng w) (S (drawn w))))
  /\ ((1 # 2 <= rng w (drawn w))%Q ->
      forall after w2,
        _enemy_turn
          (append (Player.name (player self) +:+ " couldn't escape!") start)
          w1
        = Some (after, w2) ->
        turn_body self w = Some (Continue (_end_of_turn after), w2)).
Proof.
  intros Hin Hps start w1.
  split.
  - intros Hlt key rest' ->.
    assert (Qlt_bool (rng w (drawn w)) 0.5 = true) as Hdraw.
    { unfold Qlt_bool. apply negb_true_iff.
      destruct (Qle_bool 0.5 (rng w (drawn w))) eqn:E; [|done].
      apply Qle_bool_iff in E. lra. }
    unfold turn_body, bind, input. cbn [player with_turn].
    rewrite Hps, Hin. change (strip "4") with "4". unfold player_turn.
    cbn [String.eqb Ascii.eqb Bool.eqb andb]. fold start.
    unfold _attempt_flee, random, bind, input, ret.
    cbn [rng drawn stdin]. by rewrite Hdraw.
  - intros Hge after w2 Henemy.
    assert (Qlt_bool (rng w (drawn w)) 0.5 = false) as Hdraw.
    { unfold Qlt_bool. apply negb_false_iff, Qle_bool_iff. lra. }
    unfold turn_body, bind, input. cbn [player with_turn].
    rewrite Hps, Hin. change (strip "4") with "4". unfold player_turn.
    cbn [String.eqb Ascii.eqb Bool.eqb andb]. fold start.
    unfold _attempt_flee, random, bind, input, ret.
    cbn [rng drawn stdin]. rewrite Hdraw. fold w1.
    cbn [player with_turn start]. by rewrite Henemy.
Qed.

End Flight.

(** * The further properties at sample states *)

Lemma remove_status_effect_only_that_name_witness :
  named "Burn"
    (Stats.status_effects (Stats.remove_status_effect burning_stats "Poison"))
  = named "Burn" (Stats.status_effects burning_stats)
  /\ Stats.remove_status_effect slime_stats "Poison" = slime_stats.
Proof.
  split.
  - pose proof (remove_status_effect_only_that_name burning_stats "Poison")
      as H.
    cbv zeta in H. destruct H as (_ & Hother & _). apply Hother. discriminate.
  - pose proof (remove_status_effect_only_that_name slime_stats "Poison")
      as H.
    cbv zeta in H. destruct H as (_ & _ & Hsame & _). apply Hsame.
    reflexivity.
Defined.

Lemma add_then_remove_status_effect_witness :
  Stats.remove_status_effect
    (Stats.add_status_effect slime_stats (poison 3 1)) "Poison"
  = slime_stats.
Proof.
  pose proof (add_then_remove_status_effect slime_stats (poison 3 1)) as H.
  cbv zeta in H. destruct H as (_ & Hback). apply Hback. reflexivity.
Defined.

Lemma add_status_effect_keeps_names_witness :
  names
    (Stats.status_effects (Stats.add_status_effect poisoned_stats (poison 4 3)))
  = ["Poison"]
  /\ NoDup
       (names
          (Stats.status_effects
             (Stats.add_status_effect poisoned_stats (poison 4 3)))).
Proof.
  pose proof (add_status_effect_keeps_names poisoned_stats (poison 4 3)) as H.
  cbv zeta in H. destruct H as (_ & Hnames & _ & Hnodup). split.
  - rewrite Hnames; [reflexivity|]. vm_compute. discriminate.
  - apply Hnodup. apply (bool_decide_unpack _). vm_compute. exact I.
Defined.

Lemma stat_modifier_after_add_witness :
  Stats.get_stat_modifier
    (Stats.add_status_effect (Player.stats (Warrior "Hero"))
       (StatusEffect.mk "Battle Cry" "stat_mod" "attack" 5 3)) "attack"
  = 5
  /\ Stats.get_stat_modifier
       (Stats.add_status_effect (Player.stats buffed_warrior)
          (StatusEffect.mk "Battle Cry" "stat_mod" "attack" 5 3)) "attack"
     = 5.
Proof.
  split.
  - pose proof (stat_modifier_after_add (Player.stats (Warrior "Hero"))
                  (StatusEffect.mk "Battle Cry" "stat_mod" "attack" 5 3)
                  "attack") as H.
    cbv zeta in H. destruct H as (Hnew & _). rewrite Hnew; reflexivity.
  - pose proof (stat_modifier_after_add (Player.stats buffed_warrior)
                  (StatusEffect.mk "Battle Cry" "stat_mod" "attack" 5 3)
                  "attack") as H.
    cbv zeta in H. destruct H as (_ & Hold).
    rewrite Hold; [reflexivity | vm_compute; discriminate | reflexivity].
Defined.

Lemma tick_only_hurts_and_ages_witness :
  0 <= Stats.hp (Stats.tick_status_effects burning_stats).2 <= 40
  /\ NoDup
       (names
          (Stats.status_effects (Stats.tick_status_effects burning_stats).2)).
Proof.
  pose proof (tick_only_hurts_and_ages burning_stats) as H.
  cbv zeta in H. destruct H as (_ & Hhp & _ & _ & Hnodup & _). split.
  - apply Hhp. vm_compute. discriminate.
  - apply Hnodup. apply (bool_decide_unpack _). vm_compute. exact I.
Defined.

Lemma effects_last_their_duration_witness :
  Stats.status_effects (ticks 2 burning_stats)
  = [StatusEffect.mk "Battle Cry" "stat_mod" "attack" 5 1]
  /\ Stats.status_effects (ticks 3 burning_stats) = [].
Proof.
  assert (NoDup (names (Stats.status_effects burning_stats))) as Hnodup
    by (apply (bool_decide_unpack _); vm_compute; exact I).
  split.
  - pose proof (effects_last_their_duration 2 burning_stats Hnodup) as H.
    destruct H as (Hleft & _). rewrite Hleft. reflexivity.
  - pose proof (effects_last_their_duration 3 burning_stats Hnodup) as H.
    destruct H as (_ & _ & Hgone). apply Hgone.
    + apply (bool_decide_unpack _). vm_compute. exact I.
    + apply (bool_decide_unpack _). vm_compute. exact I.
Defined.

Lemma ticks_deal_the_dot_damage_witness :
  Stats.hp (ticks 2 burning_stats) = 33.
Proof.
  rewrite (ticks_deal_the_dot_damage 2 burning_stats).
  - reflexivity.
  - apply (bool_decide_unpack _). vm_compute. exact I.
  - vm_compute. discriminate.
Defined.

Lemma restore_mp_gives_back_use_mp_witness :
  Stats.restore_mp (Stats.use_mp slime_stats 3).2 3 = slime_stats.
Proof.
  pose proof (restore_mp_gives_back_use_mp slime_stats 3) as H.
  destruct H as (_ & Hback).
  destruct Hback as (_ & Hsame); [vm_compute; discriminate ..|].
  exact Hsame.
Defined.

Lemma basic_attack_damage_range_witness :
  match Entity.basic_attack (Player.entity (Warrior "Hero"))
          (Enemy.entity goblin_scout) (typed []) with
  | Some (damage, _, _, w') => 14 <= damage <= 21 /\ w' = after_draw (typed [])
  | None => False
  end.
Proof.
  destruct (basic_attack_damage_range (Player.entity (Warrior "Hero"))
              (Enemy.entity goblin_scout) (typed []))
    as (damage & Hrun & _ & Hrange); [vm_compute; discriminate ..|].
  rewrite Hrun.
  change (Stats.get_effective_attack _) with 18 in Hrange.
  change (18 * 8 / 10) with 14 in Hrange.
  change (18 * 12 / 10) with 21 in Hrange.
  split; [lia | reflexivity].
Defined.

Lemma damage_skill_range_witness :
  match Player.use_skill (Warrior "Hero") power_strike
          (Enemy.entity goblin_scout) (typed []) with
  | Some (Some damage, _, caster', _, _) =>
      24 <= damage <= 29 /\ Stats.mp (Player.stats caster') = 20
  | _ => False
  end.
Proof.
  destruct (damage_skill_range (Warrior "Hero") power_strike
              (Enemy.entity goblin_scout) (typed []))
    as (damage & msg & Hrun & Hrange);
    [reflexivity | vm_compute; discriminate ..|].
  rewrite Hrun.
  change (Player.effect_amount _ _) with 27 in Hrange.
  change (27 * 9 / 10) with 24 in Hrange.
  change (27 * 11 / 10) with 29 in Hrange.
  split; [lia | reflexivity].
Defined.

Lemma use_skill_fails_exactly_when_witness :
  match Player.use_skill tired_warrior power_strike
          (Enemy.entity goblin_scout) (typed []) with
  | Some (damage, _, caster', target', w') =>
      damage = None /\ caster' = tired_warrior
      /\ target' = Enemy.entity goblin_scout /\ w' = typed []
  | None => False
  end.
Proof.
  pose proof (use_skill_fails_exactly_when tired_warrior power_strike
                (Enemy.entity goblin_scout) (typed [])) as H.
  cbv zeta in H.
  destruct H as (damage & msg & caster' & target' & w' & Hrun & Hnone & Hlow
                 & _).
  rewrite Hrun.
  assert (Stats.mp (Player.stats tired_warrior) < Skill.mp_cost power_strike)
    as Hlt by reflexivity.
  split; [apply Hnone; left; exact Hlt | exact (Hlow Hlt)].
Defined.

Lemma use_skill_frame_witness :
  match Player.use_skill (Warrior "Hero") power_strike
          (Enemy.entity goblin_scout) (typed ["1"]) with
  | Some (_, _, caster', _, w') =>
      0 <= Stats.mp (Player.stats caster') /\ stdin w' = ["1"]
  | None => False
  end.
Proof.
  destruct (Player.use_skill (Warrior "Hero") power_strike
              (Enemy.entity goblin_scout) (typed ["1"]))
    as [[[[[damage msg] caster'] target'] w']|] eqn:Hrun;
    [|vm_compute in Hrun; discriminate].
  pose proof (use_skill_frame _ _ _ _ _ _ _ _ _ Hrun) as H.
  cbv zeta in H. destruct H as (Hin & _ & _ & _ & _ & Hmp & _).
  split; [apply Hmp; vm_compute; discriminate | exact Hin].
Defined.

Lemma attack_modifier_skills_witness :
  exists msg caster',
    Player.use_skill (Warrior "Hero") battle_cry (Enemy.entity goblin_scout)
      (typed [])
    = Some (Some 0, msg, caster', Enemy.entity goblin_scout, typed [])
    /\ Stats.get_stat_modifier (Player.stats caster') "attack" = 5.
Proof.
  pose proof (attack_modifier_skills (Warrior "Hero") battle_cry
                (Enemy.entity goblin_scout) (typed [])) as H.
  cbv zeta in H. destruct H as (Hbuff & _); [vm_compute; discriminate|].
  destruct (Hbuff eq_refl) as (msg & caster' & Hrun & _ & Hmod).
  exists msg, caster'. split; [exact Hrun|]. rewrite Hmod. reflexivity.
Defined.

Lemma use_item_takes_one_item_witness :
  Player.use_item (Warrior "Hero") "potion" = (None, Warrior "Hero").
Proof.
  pose proof (use_item_takes_one_item (Warrior "Hero") "potion") as H.
  cbv zeta in H. destruct H as (Hnone & Hsame & _).
  assert ((Player.use_item (Warrior "Hero") "potion").1 = None) as Hfst
    by (apply Hnone; constructor).
  specialize (Hsame Hfst).
  destruct (Player.use_item (Warrior "Hero") "potion") as [r p].
  simpl in Hfst, Hsame. by subst.
Defined.


Lemma skill_menu_declined_witness :
  match CombatSystem._handle_skills tired_duel (typed ["1"; ""]) with
  | Some (false, self', w') =>
      CombatSystem.player self' = tired_warrior /\ drawn w' = O
  | _ => False
  end.
Proof.
  destruct (CombatSystem._handle_skills tired_duel (typed ["1"; ""]))
    as [[[[] self'] w']|] eqn:Hrun; try (vm_compute in Hrun; discriminate).
  assert (Forall (fun sk => Skill.skill_type sk ∈ known_skill_types)
            (Player.skills (CombatSystem.player tired_duel))) as Hknown
    by (repeat constructor).
  destruct (skill_menu_declined _ _ _ _ Hknown Hrun)
    as (Hplayer & _ & _ & _ & Hdrawn & _).
  split; [exact Hplayer | exact Hdrawn].
Defined.

Lemma enemy_turn_outcome_witness :
  match CombatSystem._enemy_turn warrior_duel (typed []) with
  | Some (_, w') => w' = after_draw (typed [])
  | None => False
  end.
Proof.
  destruct (CombatSystem._enemy_turn warrior_duel (typed []))
    as [[self' w']|] eqn:Hrun; [|vm_compute in Hrun; discriminate].
  pose proof (enemy_turn_outcome _ _ _ _ Hrun) as H.
  cbv zeta in H. destruct H as (msg & hp' & _ & _ & Hacts).
  destruct Hacts as (Hdraw & _); [reflexivity|]. exact Hdraw.
Defined.


Lemma declined_menu_skips_the_turn_witness :
  CombatSystem.turn_body warrior_duel (typed ["3"; ""])
  = Some (CombatSystem.Continue (CombatSystem.with_turn 1 warrior_duel),
          typed []).
Proof.
  pose proof (declined_menu_skips_the_turn warrior_duel (typed ["3"; ""])
                "3" [""] (CombatSystem.with_turn 1 warrior_duel) (typed [])
                eq_refl eq_refl) as H.
  cbv zeta in H. destruct H as (Hitems & _).
  apply Hitems; reflexivity.
Defined.

Lemma victory_rewards_witness :
  match CombatSystem._handle_victory warrior_duel (typed [""]) with
  | Some (b, self', _) =>
      b = true /\ Player.gold (CombatSystem.player self') = 15
      /\ Stats.exp (Player.stats (CombatSystem.player self')) = 30
  | None => False
  end.
Proof.
  destruct (CombatSystem._handle_victory warrior_duel (typed [""]))
    as [[[b self'] w']|] eqn:Hrun; [|vm_compute in Hrun; discriminate].
  pose proof (victory_rewards _ _ _ _ _ Hrun) as H.
  cbv zeta in H. destruct H as (Hb & _ & _ & Hplayer & _).
  rewrite Hplayer. split; [exact Hb|]. split; reflexivity.
Defined.

Lemma pass_returns_on_victory_or_flight_witness :
  match CombatSystem.turn_body warrior_duel (mk_env ["4"; ""] quarter 0) with
  | Some (CombatSystem.Return b self', _) =>
      b = false /\ CombatSystem.player self' = Warrior "Hero"
  | _ => False
  end.
Proof.
  destruct (CombatSystem.turn_body warrior_duel (mk_env ["4"; ""] quarter 0))
    as [[[self'|self'|b self'] w']|] eqn:Hrun;
    try (vm_compute in Hrun; discriminate).
  destruct (pass_returns_on_victory_or_flight _ _ _ _ _ Hrun)
    as [(Hb & _)|(Hb & Hplayer & _)].
  - vm_compute in Hrun. congruence.
  - split; [exact Hb | exact Hplayer].
Defined.

Lemma run_combat_verdict_witness :
  match CombatSystem.run_combat 1 last_stand last_stand_keys with
  | Some (Some (b, self'), _) =>
      b = false
      /\ (Stats.is_alive (Player.stats (CombatSystem.player self')) = false
          \/ CombatSystem.active self' = true)
  | _ => False
  end.
Proof.
  destruct (CombatSystem.run_combat 1 last_stand last_stand_keys)
    as [[[[b self']|] w']|] eqn:Hrun; try (vm_compute in Hrun; discriminate).
  assert (b = false) as Hb by (vm_compute in Hrun; congruence).
  destruct (run_combat_verdict _ _ _ _ _ _ Hrun) as (_ & Hlost).
  split; [exact Hb|].
  destruct (Hlost Hb) as [Hdead|(Hactive & _)]; [by left | by right].
Defined.

Lemma gain_exp_keeps_experience_and_ranges_witness :
  Stats.level
    (Player.stats (Player.gain_exp (Player.gain_exp (Warrior "Hero") 250) 0))
  = 3
  /\ 120 <= Stats.max_hp (Player.stats (Player.gain_exp (Warrior "Hero") 250)).
Proof.
  pose proof (gain_exp_keeps_experience_and_ranges (Warrior "Hero") 250) as H.
  cbv zeta in H. destruct H as (_ & Hagain & _ & _ & Hmax & _). split.
  - rewrite Hagain; [reflexivity|]. vm_compute. discriminate.
  - apply Hmax. vm_compute. discriminate.
Defined.

Lemma stun_skill_costs_the_enemy_its_turn_witness :
  exists self',
    CombatSystem.turn_body thief_duel (typed ["2"; "3"])
    = Some (CombatSystem.Continue self', typed [])
    /\ Stats.mp (Player.stats (CombatSystem.player self')) = 20
    /\ Enemy.stats (CombatSystem.enemy self') = Enemy.stats goblin_scout.
Proof.
  destruct (stun_skill_costs_the_enemy_its_turn thief_duel
              (typed ["2"; "3"]) "3" [] stunning_strike)
    as (self' & Hrun & Hplayer & Henemy);
    [reflexivity | reflexivity | vm_compute; discriminate | reflexivity
    | reflexivity | vm_compute; discriminate | reflexivity | reflexivity
    | left; reflexivity |].
  exists self'. split; [exact Hrun|]. split.
  - rewrite Hplayer. reflexivity.
  - apply Henemy; reflexivity.
Defined.

Lemma flee_on_the_draw_witness :
  CombatSystem.turn_body warrior_duel (mk_env ["4"; ""] quarter 0)
  = Some (CombatSystem.Return false
            (CombatSystem.append "Hero successfully fled!"
               (CombatSystem.with_turn 1 warrior_duel)),
          mk_env [] quarter 1)
  /\ match CombatSystem._enemy_turn
             (CombatSystem.append "Hero couldn't escape!"
                (CombatSystem.with_turn 1 warrior_duel))
             (mk_env [] midpoint 1) with
     | Some (after, w2) =>
         CombatSystem.turn_body warrior_duel (typed ["4"])
         = Some (CombatSystem.Continue (CombatSystem._end_of_turn after), w2)
     | None => False
     end.
Proof.
  split.
  - pose proof (flee_on_the_draw warrior_duel (mk_env ["4"; ""] quarter 0)
                  [""] eq_refl eq_refl) as H.
    cbv zeta in H. destruct H as (Hflees & _).
    apply (Hflees ltac:(reflexivity) "" [] eq_refl).
  - destruct (CombatSystem._enemy_turn _ _) as [[after w2]|] eqn:Hrun;
      [|vm_compute in Hrun; discriminate].
    pose proof (flee_on_the_draw warrior_duel (typed ["4"]) [] eq_refl
                  eq_refl) as H.
    cbv zeta in H. destruct H as (_ & Hfails).
    apply Hfails; [vm_compute; discriminate | exact Hrun].
Defined.

Lemma center_text_margins_witness :
  Display.center_text "Slime" 6 = "Slime"
  /\ 0 <= Display.len (Display.center_text "Slime" 12) - 5
       <= 12 - Display.len (Display.center_text "Slime" 12).
Proof.
  split.
  - pose proof (center_text_margins "Slime" 6) as H.
    cbv zeta in H. destruct H as (_ & _ & Hsame). apply Hsame. reflexivity.
  - pose proof (center_text_margins "Slime" 12) as H.
    cbv zeta in H. destruct H as (_ & Hfits & _).
    apply Hfits. vm_compute. discriminate.
Defined.

Lemma render_ascii_art_fits_witness :
  Forall (fun line => Display.len line <= 6)
    (Display.render_ascii_art two_lines 10)
  /\ Display.render_ascii_art two_lines 3 = ["a"; "cdefghi"].
Proof.
  split.
  - pose proof (render_ascii_art_fits two_lines 10) as H.
    cbv zeta in H. destruct H as (_ & Hfits & _).
    apply Hfits. vm_compute. discriminate.
  - pose proof (render_ascii_art_fits two_lines 3) as H.
    cbv zeta in H. destruct H as (_ & _ & Hcut).
    rewrite Hcut; reflexivity.
Defined.

Lemma status_text_none_iff_no_effect_witness :
  Stats.get_status_effects_text slime_stats = "None"
  /\ Stats.get_status_effects_text cursed_stats = "".
Proof.
  split.
  - pose proof (status_text_none_iff_no_effect slime_stats) as H.
    cbv zeta in H. destruct H as (Hnone & _). apply Hnone. reflexivity.
  - pose proof (status_text_none_iff_no_effect cursed_stats) as H.
    cbv zeta in H. destruct H as (_ & Hempty & _).
    apply Hempty; [discriminate|]. constructor; [reflexivity | constructor].
Defined.
